(** * remoteForS3: the S3 adapter of remotely-save

    A shallow embedding of [src/remoteForS3.ts].  The asynchronous functions
    of the module are written in a small monad that threads the state of the
    outside world (bucket, vault, cipher) and records every request handed to
    the S3 client, so that statements about "what is sent to the remote" are
    statements about that record. *)

From Stdlib Require Import String Ascii List ZArith Bool Arith Lia DecimalString.
Import ListNotations.
Open Scope string_scope.

(** ** JavaScript values used by the module *)

(** [ArrayBuffer] and [Buffer] contents. *)
Definition ArrayBuffer := list Byte.byte.

(** [String.prototype.endsWith]. *)
Definition endsWith (s suffix : string) : bool :=
  let n := String.length s in
  let m := String.length suffix in
  (m <=? n)%nat && String.eqb (substring (n - m) m s) suffix.

(** Truthiness of a [boolean | undefined]. *)
Definition truthy (b : option bool) : bool :=
  match b with Some true => true | _ => false end.

(** [x || d] for [x : string | false | undefined]: the empty string is falsy
    as well. *)
Definition or_else (x : option string) (d : string) : string :=
  match x with
  | Some s => if String.eqb s "" then d else s
  | None => d
  end.

(** [t === undefined || t === ""]. *)
Definition undefinedOrEmpty (t : option string) : bool :=
  match t with
  | None => true
  | Some s => String.eqb s ""
  end.

(** What a [throw] carries: the two constructors the module itself uses;
    collaborators reject with values of the same type. *)
Inductive JsError : Type :=
| Error (msg : string)
| TypeError (msg : string).

(** ** Data model *)

(** [S3Config] of baseTypes. *)
Record S3Config : Type := {
  s3Endpoint : string;
  s3Region : string;
  s3AccessKeyID : string;
  s3SecretAccessKey : string;
  s3BucketName : string
}.

Definition DEFAULT_S3_CONFIG : S3Config :=
  {| s3Endpoint := ""; s3Region := ""; s3AccessKeyID := "";
     s3SecretAccessKey := ""; s3BucketName := "" |}.

(** [_Object] of the SDK: every field is optional there. *)
Record S3ObjectType : Type := {
  Key : option string;
  LastModified : option Z;
  Size : option Z;
  ETag : option string
}.

(** [RemoteItem] of baseTypes, as the two converters build it. *)
Record RemoteItem : Type := {
  key : option string;
  lastModified : Z;
  size : option Z;
  remoteType : string;
  etag : option string
}.

(** [$metadata] of a response. *)
Record ResponseMetadata : Type := {
  httpStatusCode : option Z
}.

Record HeadObjectCommandOutput : Type := {
  head_LastModified : option Z;
  head_ContentLength : option Z;
  head_ETag : option string
}.

Record ListObjectsV2CommandInput : Type := {
  list_Bucket : string;
  Prefix : option string;
  ContinuationToken : option string
}.

Record ListObjectsV2CommandOutput : Type := {
  list_metadata : option ResponseMetadata;
  Contents : option (list S3ObjectType);
  IsTruncated : option bool;
  NextContinuationToken : option string
}.

(** The [Body] of a GetObject response: a Node [Readable] (its data chunks,
    then [end] or [error]), a web [ReadableStream], a [Blob], or anything
    else. *)
Inductive GetObjectBody : Type :=
| BodyReadable (chunks : list ArrayBuffer) (failure : option JsError)
| BodyReadableStream (content : JsError + ArrayBuffer)
| BodyBlob (content : JsError + ArrayBuffer)
| BodyOther (shown : string).

Record HeadBucketCommandOutput : Type := {
  bucket_metadata : option ResponseMetadata
}.

(** The requests the module hands to the S3 client.  [Upload] stands for
    [new Upload({client, queueSize, partSize, leavePartsOnError, params}).done()]
    of lib-storage; the others are [s3Client.send(new XCommand(...))]. *)
Inductive Command : Type :=
| HeadObjectCommand (Bucket : string) (K : option string)
| PutObjectCommand (Bucket : string) (K : option string)
    (Body : ArrayBuffer) (ContentType : string)
| Upload (queueSize partSize : Z) (leavePartsOnError : bool)
    (Bucket : string) (K : option string)
    (Body : ArrayBuffer) (ContentType : string)
| ListObjectsV2Command (input : ListObjectsV2CommandInput)
| GetObjectCommand (Bucket : string) (K : option string)
| DeleteObjectCommand (Bucket : string) (K : option string)
| HeadBucketCommand (Bucket : string).

(** What the client resolves with, per request.  A HeadBucket result may be
    [undefined] as far as [checkConnectivity] is concerned. *)
Definition Reply (c : Command) : Type :=
  match c with
  | HeadObjectCommand _ _ => HeadObjectCommandOutput
  | PutObjectCommand _ _ _ _ => unit
  | Upload _ _ _ _ _ _ _ => unit
  | ListObjectsV2Command _ => ListObjectsV2CommandOutput
  | GetObjectCommand _ _ => GetObjectBody
  | DeleteObjectCommand _ _ => unit
  | HeadBucketCommand _ => option HeadBucketCommandOutput
  end.

(** The object key a request names, if it names one. *)
Definition commandKey (c : Command) : option (option string) :=
  match c with
  | HeadObjectCommand _ k => Some k
  | PutObjectCommand _ k _ _ => Some k
  | Upload _ _ _ _ k _ _ => Some k
  | GetObjectCommand _ k => Some k
  | DeleteObjectCommand _ k => Some k
  | ListObjectsV2Command _ => None
  | HeadBucketCommand _ => None
  end.

(** The content type a write request carries. *)
Definition commandContentType (c : Command) : option string :=
  match c with
  | PutObjectCommand _ _ _ ct => Some ct
  | Upload _ _ _ _ _ _ ct => Some ct
  | _ => None
  end.

(** Requests that write an object. *)
Definition isWrite (c : Command) : bool :=
  match c with
  | PutObjectCommand _ _ _ _ => true
  | Upload _ _ _ _ _ _ _ => true
  | _ => false
  end.

(** ** The monad of asynchronous code *)

(** How an [await]ed computation ends: a value, a rejection, or never (the
    last only arises from the listing loop, which is run with fuel). *)
Inductive Outcome (A : Type) : Type :=
| Ok (a : A)
| Throw (e : JsError)
| Diverge.
Arguments Ok {A} a.
Arguments Throw {A} e.
Arguments Diverge {A}.

Definition isThrow {A : Type} (o : Outcome A) : bool :=
  match o with Throw _ => true | _ => false end.

(** ** Collaborators *)

(** Everything the module calls and does not define, over the state [World]
    of the outside (bucket, vault, cipher randomness).  Each asynchronous
    call either rejects or resolves, and moves the world on. *)
Record Env (World : Type) : Type := {
  (** the S3 client, for [s3Client.send] and the multipart [Upload] *)
  s3_send : forall c : Command, World -> (JsError + Reply c) * World;
  (** [vault.adapter.readBinary(path)] *)
  readBinary : string -> World -> (JsError + ArrayBuffer) * World;
  (** [vault.adapter.writeBinary(path, content, {mtime})] *)
  writeBinary : string -> ArrayBuffer -> Z -> World -> (JsError + unit) * World;
  (** [mkdirpInVault(path, vault)] of misc *)
  mkdirpInVault : string -> World -> (JsError + unit) * World;
  (** [encryptArrayBuffer] and [decryptArrayBuffer] of encrypt *)
  encryptArrayBuffer :
    ArrayBuffer -> string -> World -> (JsError + ArrayBuffer) * World;
  decryptArrayBuffer :
    ArrayBuffer -> string -> World -> (JsError + ArrayBuffer) * World;
  (** [arrayBufferToBuffer] and [bufferToArrayBuffer] of misc *)
  arrayBufferToBuffer : ArrayBuffer -> ArrayBuffer;
  bufferToArrayBuffer : ArrayBuffer -> ArrayBuffer;
  (** [mime.lookup] and [mime.contentType] of the mime-types package; both
      answer [false] (here [None]) when they find nothing *)
  mime_lookup : string -> option string;
  mime_contentType : string -> option string
}.
Arguments s3_send {World} _ _ _.
Arguments readBinary {World} _ _ _.
Arguments writeBinary {World} _ _ _ _ _.
Arguments mkdirpInVault {World} _ _ _.
Arguments encryptArrayBuffer {World} _ _ _ _.
Arguments decryptArrayBuffer {World} _ _ _ _.
Arguments arrayBufferToBuffer {World} _ _.
Arguments bufferToArrayBuffer {World} _ _.
Arguments mime_lookup {World} _ _.
Arguments mime_contentType {World} _ _.

(** The world together with the requests issued so far, oldest first. *)
Record State (World : Type) : Type := {
  world : World;
  sent : list Command
}.
Arguments world {World} _.
Arguments sent {World} _.
Arguments Build_State {World} _ _.

Definition M (World A : Type) : Type := State World -> Outcome A * State World.

Section Monad.

Context {World : Type}.

Definition ret {A : Type} (a : A) : M World A := fun st => (Ok a, st).

Definition throw {A : Type} (e : JsError) : M World A :=
  fun st => (Throw e, st).

Definition diverge {A : Type} : M World A := fun st => (Diverge, st).

Definition bind {A B : Type} (m : M World A) (f : A -> M World B)
    : M World B :=
  fun st =>
    match m st with
    | (Ok a, st') => f a st'
    | (Throw e, st') => (Throw e, st')
    | (Diverge, st') => (Diverge, st')
    end.

(** [try { m } catch (err) { h err }]. *)
Definition tryCatch {A : Type} (m : M World A) (h : JsError -> M World A)
    : M World A :=
  fun st =>
    match m st with
    | (Throw e, st') => h e st'
    | r => r
    end.

(** A promise that is started and never awaited: its effects happen, its
    settlement is dropped. *)
Definition fireAndForget {A : Type} (m : M World A) : M World unit :=
  fun st => (Ok tt, snd (m st)).

(** Lifting a collaborator's call. *)
Definition call {A : Type} (f : World -> (JsError + A) * World)
    : M World A :=
  fun st =>
    let (r, w) := f (world st) in
    (match r with inl e => Throw e | inr a => Ok a end,
     {| world := w; sent := sent st |}).

(** [s3Client.send(c)] (and [upload.done()]): the request is recorded. *)
Definition send (E : Env World) (c : Command) : M World (Reply c) :=
  fun st =>
    let (r, w) := s3_send E c (world st) in
    (match r with inl e => Throw e | inr a => Ok a end,
     {| world := w; sent := sent st ++ [c] |}).

End Monad.

Declare Scope async_scope.
Delimit Scope async_scope with async.
Notation "x <- m ;; k" := (bind m (fun x => k))
  (at level 61, m at next level, right associativity) : async_scope.
Notation "m ;;; k" := (bind m (fun _ => k))
  (at level 61, right associativity) : async_scope.
Open Scope async_scope.

Definition DEFAULT_CONTENT_TYPE : string := "application/octet-stream".

Section Adapter.

Context {World : Type} (E : Env World).

(** ** Converters *)

(** [x.LastModified.valueOf()] on an absent date is a TypeError. *)
Definition valueOfDate (d : option Z) : M World Z :=
  match d with
  | Some t => ret t
  | None =>
      throw (TypeError
               "Cannot read properties of undefined (reading 'valueOf')")
  end.

Definition fromS3ObjectToRemoteItem (x : S3ObjectType) : M World RemoteItem :=
  t <- valueOfDate (LastModified x) ;;
  ret {| key := Key x; lastModified := t; size := Size x;
         remoteType := "s3"; etag := ETag x |}.

Definition fromS3HeadObjectToRemoteItem
    (k : option string) (x : HeadObjectCommandOutput) : M World RemoteItem :=
  t <- valueOfDate (head_LastModified x) ;;
  ret {| key := k; lastModified := t; size := head_ContentLength x;
         remoteType := "s3"; etag := head_ETag x |}.

(** [xs.map(f)] for an [f] that may throw: left to right, stopping at the
    first throw. *)
Fixpoint mapM {A B : Type} (f : A -> M World B) (xs : list A)
    : M World (list B) :=
  match xs with
  | [] => ret []
  | x :: xs' =>
      y <- f x ;;
      ys <- mapM f xs' ;;
      ret (y :: ys)
  end.

(** ** getRemoteMeta *)

Definition getRemoteMeta (s3Config : S3Config) (fileOrFolderPath : string)
    : M World RemoteItem :=
  res <- send E (HeadObjectCommand (s3BucketName s3Config)
                   (Some fileOrFolderPath)) ;;
  fromS3HeadObjectToRemoteItem (Some fileOrFolderPath) res.

(** ** uploadToRemote *)

(** The content type of a file upload:
    [mime.contentType(mime.lookup(path) || DEFAULT) || DEFAULT] without a
    password, the default with one. *)
Definition fileContentType (fileOrFolderPath password : string) : string :=
  if String.eqb password "" then
    or_else
      (mime_contentType E
         (or_else (mime_lookup E fileOrFolderPath) DEFAULT_CONTENT_TYPE))
      DEFAULT_CONTENT_TYPE
  else DEFAULT_CONTENT_TYPE.

Definition uploadToRemote (s3Config : S3Config) (fileOrFolderPath : string)
    (isRecursively : bool) (password remoteEncryptedKey : string)
    : M World RemoteItem :=
  let uploadFile :=
    if negb (String.eqb password "") then remoteEncryptedKey
    else fileOrFolderPath in
  let isFolder := endsWith fileOrFolderPath "/" in
  if isFolder && isRecursively then
    throw (Error "upload function doesn't implement recursive function yet!")
  else if isFolder && negb isRecursively then
    (* folder *)
    let contentType := DEFAULT_CONTENT_TYPE in
    send E (PutObjectCommand (s3BucketName s3Config) (Some uploadFile)
              [] contentType) ;;;
    getRemoteMeta s3Config uploadFile
  else
    (* file; isRecursively is ignored here *)
    let contentType := fileContentType fileOrFolderPath password in
    localContent <- call (readBinary E fileOrFolderPath) ;;
    remoteContent <-
      (if negb (String.eqb password "") then
         call (encryptArrayBuffer E localContent password)
       else ret localContent) ;;
    let body := arrayBufferToBuffer E remoteContent in
    send E (Upload 20 5242880 false (s3BucketName s3Config)
              (Some uploadFile) body contentType) ;;;
    getRemoteMeta s3Config uploadFile.

(** ** listFromRemote *)

(** The variables of the function that the loop reads and writes. *)
Record ListVars : Type := {
  confCmd : ListObjectsV2CommandInput;
  contents : list S3ObjectType;
  isTruncated : option bool;
  continuationToken : option string
}.

(** The [do { ... } while (isTruncated)] loop; [fuel] bounds the number of
    rounds, and running out of it is [Diverge]. *)
Fixpoint listLoop (fuel : nat) (v : ListVars) : M World ListVars :=
  match fuel with
  | O => diverge
  | S fuel' =>
      rsp <- send E (ListObjectsV2Command (confCmd v)) ;;
      match list_metadata rsp with
      | None =>
          throw (TypeError
            "Cannot read properties of undefined (reading 'httpStatusCode')")
      | Some md =>
          if negb (match httpStatusCode md with
                   | Some code => Z.eqb code 200
                   | None => false
                   end)
          then throw (Error "some thing bad while listing remote!")
          else
            match Contents rsp with
            | None => ret v (* break *)
            | Some cs =>
                let v' :=
                  {| confCmd :=
                       {| list_Bucket := list_Bucket (confCmd v);
                          Prefix := Prefix (confCmd v);
                          ContinuationToken := NextContinuationToken rsp |};
                     contents := contents v ++ cs;
                     isTruncated := IsTruncated rsp;
                     continuationToken := continuationToken v |} in
                if truthy (isTruncated v')
                   && undefinedOrEmpty (continuationToken v')
                then
                  throw (Error
                    "isTruncated is true but no continuationToken provided")
                else if truthy (isTruncated v') then listLoop fuel' v'
                else ret v'
            end
      end
  end.

Definition listFromRemote (fuel : nat) (s3Config : S3Config)
    (prefix : option string) : M World (list RemoteItem) :=
  let v0 :=
    {| confCmd := {| list_Bucket := s3BucketName s3Config;
                     Prefix := prefix;
                     ContinuationToken := None |};
       contents := [];
       isTruncated := Some true;
       continuationToken := Some "" |} in
  v <- listLoop fuel v0 ;;
  mapM fromS3ObjectToRemoteItem (contents v).

(** ** downloadFromRemote *)

Definition getObjectBodyToArrayBuffer (b : GetObjectBody)
    : M World ArrayBuffer :=
  match b with
  | BodyReadable chunks failure =>
      match failure with
      | Some e => throw e
      | None => ret (bufferToArrayBuffer E (List.concat chunks))
      end
  | BodyReadableStream content | BodyBlob content =>
      match content with
      | inl e => throw e
      | inr bytes => ret bytes
      end
  | BodyOther shown =>
      throw (TypeError
               ("The type of " ++ shown ++
                " is not one of the supported types"))
  end.

Definition downloadFromRemoteRaw (s3Config : S3Config)
    (fileOrFolderPath : string) : M World ArrayBuffer :=
  data <- send E (GetObjectCommand (s3BucketName s3Config)
                    (Some fileOrFolderPath)) ;;
  getObjectBodyToArrayBuffer data.

Definition downloadFromRemote (s3Config : S3Config)
    (fileOrFolderPath : string) (mtime : Z)
    (password remoteEncryptedKey : string) : M World unit :=
  let isFolder := endsWith fileOrFolderPath "/" in
  call (mkdirpInVault E fileOrFolderPath) ;;;
  if isFolder then
    (* mkdirp locally is enough *)
    ret tt
  else
    let downloadFile :=
      if negb (String.eqb password "") then remoteEncryptedKey
      else fileOrFolderPath in
    remoteContent <- downloadFromRemoteRaw s3Config downloadFile ;;
    localContent <-
      (if negb (String.eqb password "") then
         call (decryptArrayBuffer E remoteContent password)
       else ret remoteContent) ;;
    call (writeBinary E fileOrFolderPath localContent mtime).

(** ** deleteFromRemote *)

(** [xs.forEach(async (x) => { await f(x) })]: the calls are started in
    order and none is awaited. *)
Fixpoint forEachAsync {A B : Type} (f : A -> M World B) (xs : list A)
    : M World unit :=
  match xs with
  | [] => ret tt
  | x :: xs' => fireAndForget (f x) ;;; forEachAsync f xs'
  end.

Definition deleteFromRemote (fuel : nat) (s3Config : S3Config)
    (fileOrFolderPath password remoteEncryptedKey : string) : M World unit :=
  if String.eqb fileOrFolderPath "/" then ret tt
  else
    let remoteFileName :=
      if negb (String.eqb password "") then remoteEncryptedKey
      else fileOrFolderPath in
    send E (DeleteObjectCommand (s3BucketName s3Config)
              (Some remoteFileName)) ;;;
    if endsWith fileOrFolderPath "/" && String.eqb password "" then
      x <- listFromRemote fuel s3Config (Some fileOrFolderPath) ;;
      forEachAsync
        (fun element =>
           send E (DeleteObjectCommand (s3BucketName s3Config)
                     (key element)))
        x
    else if endsWith fileOrFolderPath "/" && negb (String.eqb password "")
    then (* TODO *) ret tt
    else (* pass *) ret tt.

(** ** checkConnectivity *)

Definition checkConnectivity (s3Config : S3Config) : M World bool :=
  tryCatch
    (results <- send E (HeadBucketCommand (s3BucketName s3Config)) ;;
     match results with
     | None => ret false
     | Some r =>
         match bucket_metadata r with
         | None => ret false
         | Some md =>
             match httpStatusCode md with
             | None => ret false
             | Some code => ret (Z.eqb code 200)
             end
         end
     end)
    (fun _ => ret false).

End Adapter.

(** ** getS3Client *)

(** [String.prototype.startsWith]. *)
Definition startsWith (s p : string) : bool := String.prefix p s.

(** What [new S3Client({...})] is built from. *)
Record Credentials : Type := {
  accessKeyId : string;
  secretAccessKey : string
}.

Record S3ClientConfig : Type := {
  region : string;
  endpoint : string;
  credentials : Credentials
}.

Definition getS3Client (s3Config : S3Config) : S3ClientConfig :=
  let endpoint0 := s3Endpoint s3Config in
  let endpoint1 :=
    if negb (startsWith endpoint0 "http://" || startsWith endpoint0 "https://")
    then String.append "https://" endpoint0
    else endpoint0 in
  {| region := s3Region s3Config;
     endpoint := endpoint1;
     credentials := {| accessKeyId := s3AccessKeyID s3Config;
                       secretAccessKey := s3SecretAccessKey s3Config |} |}.

(** The configuration [c] with the endpoint [e]. *)
Definition withEndpoint (c : S3Config) (e : string) : S3Config :=
  {| s3Endpoint := e;
     s3Region := s3Region c;
     s3AccessKeyID := s3AccessKeyID c;
     s3SecretAccessKey := s3SecretAccessKey c;
     s3BucketName := s3BucketName c |}.

(** ** Environments that differ in one collaborator *)

(** [E] with another cipher. *)
Definition withCipher {World : Type} (E : Env World)
    (enc dec : ArrayBuffer -> string -> World -> (JsError + ArrayBuffer) * World)
    : Env World :=
  {| s3_send := s3_send E;
     readBinary := readBinary E;
     writeBinary := writeBinary E;
     mkdirpInVault := mkdirpInVault E;
     encryptArrayBuffer := enc;
     decryptArrayBuffer := dec;
     arrayBufferToBuffer := arrayBufferToBuffer E;
     bufferToArrayBuffer := bufferToArrayBuffer E;
     mime_lookup := mime_lookup E;
     mime_contentType := mime_contentType E |}.

(** [E] with another [readBinary]. *)
Definition withReadBinary {World : Type} (E : Env World)
    (read : string -> World -> (JsError + ArrayBuffer) * World) : Env World :=
  {| s3_send := s3_send E;
     readBinary := read;
     writeBinary := writeBinary E;
     mkdirpInVault := mkdirpInVault E;
     encryptArrayBuffer := encryptArrayBuffer E;
     decryptArrayBuffer := decryptArrayBuffer E;
     arrayBufferToBuffer := arrayBufferToBuffer E;
     bufferToArrayBuffer := bufferToArrayBuffer E;
     mime_lookup := mime_lookup E;
     mime_contentType := mime_contentType E |}.

(** [E] with another MIME table. *)
Definition withMime {World : Type} (E : Env World)
    (lookup contentType : string -> option string) : Env World :=
  {| s3_send := s3_send E;
     readBinary := readBinary E;
     writeBinary := writeBinary E;
     mkdirpInVault := mkdirpInVault E;
     encryptArrayBuffer := encryptArrayBuffer E;
     decryptArrayBuffer := decryptArrayBuffer E;
     arrayBufferToBuffer := arrayBufferToBuffer E;
     bufferToArrayBuffer := bufferToArrayBuffer E;
     mime_lookup := lookup;
     mime_contentType := contentType |}.

(** [E] with another S3 client. *)
Definition withClient {World : Type} (E : Env World)
    (s3 : forall c : Command, World -> (JsError + Reply c) * World)
    : Env World :=
  {| s3_send := s3;
     readBinary := readBinary E;
     writeBinary := writeBinary E;
     mkdirpInVault := mkdirpInVault E;
     encryptArrayBuffer := encryptArrayBuffer E;
     decryptArrayBuffer := decryptArrayBuffer E;
     arrayBufferToBuffer := arrayBufferToBuffer E;
     bufferToArrayBuffer := bufferToArrayBuffer E;
     mime_lookup := mime_lookup E;
     mime_contentType := mime_contentType E |}.

(** ** Recorded requests *)

(** [issues m st tr]: run from [st], the computation [m] hands exactly the
    requests [tr], in that order, to the S3 client. *)
Definition issues {World A : Type} (m : M World A) (st : State World)
    (tr : list Command) : Prop :=
  sent (snd (m st)) = (sent st ++ tr)%list.

(** The first request of [listFromRemote]. *)
Definition firstListRequest (s3Config : S3Config) (prefix : option string)
    : Command :=
  ListObjectsV2Command
    {| list_Bucket := s3BucketName s3Config;
       Prefix := prefix;
       ContinuationToken := None |}.

(** The entries of a listing page ([[]] when it has no contents field). *)
Definition pageEntries (rsp : ListObjectsV2CommandOutput) : list S3ObjectType :=
  match Contents rsp with
  | Some cs => cs
  | None => []
  end.

(** [rsp.$metadata.httpStatusCode === 200]. *)
Definition statusIs200 (md : option ResponseMetadata) : bool :=
  match md with
  | Some {| httpStatusCode := Some code |} => Z.eqb code 200
  | _ => false
  end.

(** ** A sample bucket and vault *)

Module Sample.

Definition cfg : S3Config :=
  {| s3Endpoint := "s3.example.com"; s3Region := "eu-west-1";
     s3AccessKeyID := "AKIA"; s3SecretAccessKey := "secret";
     s3BucketName := "vault-backup" |}.

Definition entryNamed (k : string) : S3ObjectType :=
  {| Key := Some k; LastModified := Some 1650000000000%Z;
     Size := Some 12%Z; ETag := Some "0f343b0931126a20f133d67c2b018a3b" |}.

(** The entry ["notes/<n>"]. *)
Definition entry (n : nat) : S3ObjectType :=
  entryNamed ("notes/" ++ NilEmpty.string_of_uint (Nat.to_uint n)).

Definition entries (from count : nat) : list S3ObjectType :=
  map entry (seq from count).

Definition page (cs : option (list S3ObjectType)) (more : bool)
    (next : option string) : ListObjectsV2CommandOutput :=
  {| list_metadata := Some {| httpStatusCode := Some 200%Z |};
     Contents := cs;
     IsTruncated := Some more;
     NextContinuationToken := next |}.

(** A listing, served page by page from the continuation token of the
    request. *)
Definition Listing : Type :=
  option string -> JsError + ListObjectsV2CommandOutput.

(** 1037 entries under ["notes/"], in two pages of 1000 and 37: the
    first is truncated and names the token of the second. *)
Definition firstPage : ListObjectsV2CommandOutput :=
  page (Some (entries 0 1000)) true (Some "page-2").

Definition secondPage : ListObjectsV2CommandOutput :=
  page (Some (entries 1000 37)) false None.

Definition twoPages : Listing :=
  fun token =>
    match token with
    | None => inr firstPage
    | Some t =>
        if String.eqb t "page-2" then inr secondPage
        else inl (Error "InvalidArgument: continuation token")
    end.

(** One page without a contents field that still claims to be truncated
    and names no continuation token. *)
Definition truncatedNoContents : Listing :=
  fun _ => inr (page None true None).

(** One complete page that lists the same key twice. *)
Definition repeatedKey : Listing :=
  fun _ =>
    inr (page (Some [entryNamed "notes/a.md"; entryNamed "notes/a.md"])
           false None).

(** One truncated page with entries and no continuation token. *)
Definition truncatedNoToken : Listing :=
  fun _ => inr (page (Some (entries 0 3)) true None).

(** One complete page of three entries. *)
Definition onePage : Listing :=
  fun _ => inr (page (Some (entries 0 3)) false None).

(** A bucket in which every request succeeds; listings are served from
    [listing]. *)
Definition bucket (listing : Listing) (c : Command) (w : unit)
    : (JsError + Reply c) * unit :=
  match c return (JsError + Reply c) * unit with
  | HeadObjectCommand _ _ =>
      (inr {| head_LastModified := Some 1650000000000%Z;
              head_ContentLength := Some 12%Z;
              head_ETag := Some "0f343b0931126a20f133d67c2b018a3b" |}, w)
  | PutObjectCommand _ _ _ _ => (inr tt, w)
  | Upload _ _ _ _ _ _ _ => (inr tt, w)
  | ListObjectsV2Command input => (listing (ContinuationToken input), w)
  | GetObjectCommand _ _ => (inr (BodyBlob (inr [])), w)
  | DeleteObjectCommand _ _ => (inr tt, w)
  | HeadBucketCommand _ =>
      (inr (Some {| bucket_metadata :=
                      Some {| httpStatusCode := Some 200%Z |} |}), w)
  end.

(** A small MIME table in the manner of mime-types: [contentType] adds the
    default charset of text types. *)
Definition lookup (path : string) : option string :=
  if endsWith path ".md" then Some "text/markdown"
  else if endsWith path ".png" then Some "image/png"
  else None.

Definition contentType (t : string) : option string :=
  if String.prefix "text/" t then Some (t ++ "; charset=utf-8")
  else Some t.

Definition env (listing : Listing) : Env unit :=
  {| s3_send := bucket listing;
     readBinary := fun _ w => (inr [Byte.x68; Byte.x69], w);
     writeBinary := fun _ _ _ w => (inr tt, w);
     mkdirpInVault := fun _ w => (inr tt, w);
     encryptArrayBuffer := fun content _ w => (inr (rev content), w);
     decryptArrayBuffer := fun content _ w => (inr (rev content), w);
     arrayBufferToBuffer := fun b => b;
     bufferToArrayBuffer := fun b => b;
     mime_lookup := lookup;
     mime_contentType := contentType |}.

Definition start : State unit := {| world := tt; sent := [] |}.

End Sample.

(** ** Sample buckets that misbehave *)

Module Faulty.

(** HeadObject rejects; everything else is as in the sample bucket. *)
Definition headRejects (c : Command) (w : unit) : (JsError + Reply c) * unit :=
  match c as c0 return (JsError + Reply c0) * unit with
  | HeadObjectCommand _ _ => (inl (Error "NotFound"), w)
  | c0 => Sample.bucket Sample.onePage c0 w
  end.

(** HeadObject answers without [LastModified]. *)
Definition headWithoutDate (c : Command) (w : unit)
    : (JsError + Reply c) * unit :=
  match c as c0 return (JsError + Reply c0) * unit with
  | HeadObjectCommand _ _ =>
      (inr {| head_LastModified := None;
              head_ContentLength := Some 12%Z;
              head_ETag := None |}, w)
  | c0 => Sample.bucket Sample.onePage c0 w
  end.

(** GetObject answers with a body of no supported shape. *)
Definition oddBody (c : Command) (w : unit) : (JsError + Reply c) * unit :=
  match c as c0 return (JsError + Reply c0) * unit with
  | GetObjectCommand _ _ => (inr (BodyOther "undefined"), w)
  | c0 => Sample.bucket Sample.onePage c0 w
  end.

(** GetObject answers with a Node stream of two chunks. *)
Definition streamedBody (c : Command) (w : unit)
    : (JsError + Reply c) * unit :=
  match c as c0 return (JsError + Reply c0) * unit with
  | GetObjectCommand _ _ =>
      (inr (BodyReadable [[Byte.x68]; [Byte.x69; Byte.x21]] None), w)
  | c0 => Sample.bucket Sample.onePage c0 w
  end.

(** Only the delete of the marker ["notes/"] succeeds. *)
Definition onlyMarkerDeletes (c : Command) (w : unit)
    : (JsError + Reply c) * unit :=
  match c as c0 return (JsError + Reply c0) * unit with
  | DeleteObjectCommand _ k =>
      match k with
      | Some s =>
          if String.eqb s "notes/" then (inr tt, w)
          else (inl (Error "AccessDenied"), w)
      | None => (inl (Error "MissingKey"), w)
      end
  | c0 => Sample.bucket Sample.onePage c0 w
  end.

(** Every delete is refused. *)
Definition noDeletes (c : Command) (w : unit) : (JsError + Reply c) * unit :=
  match c as c0 return (JsError + Reply c0) * unit with
  | DeleteObjectCommand _ _ => (inl (Error "AccessDenied"), w)
  | c0 => Sample.bucket Sample.onePage c0 w
  end.

(** A listing answered with status 403. *)
Definition forbidden : Sample.Listing :=
  fun _ =>
    inr {| list_metadata := Some {| httpStatusCode := Some 403%Z |};
           Contents := Some (Sample.entries 0 3);
           IsTruncated := Some false;
           NextContinuationToken := None |}.

(** A complete page of which one entry has no [LastModified]. *)
Definition undatedEntry : Sample.Listing :=
  fun _ =>
    inr (Sample.page
           (Some [Sample.entry 0;
                  {| Key := Some "notes/1"; LastModified := None;
                     Size := Some 3%Z; ETag := None |}])
           false None).

(** A complete page without a contents field. *)
Definition emptyBucket : Sample.Listing :=
  fun _ => inr (Sample.page None false None).

(** A vault whose files cannot be read, and a cipher that refuses. *)
Definition unreadable : Env unit :=
  {| s3_send := Sample.bucket Sample.onePage;
     readBinary := fun _ w => (inl (Error "ENOENT"), w);
     writeBinary := fun _ _ _ w => (inr tt, w);
     mkdirpInVault := fun _ w => (inl (Error "EACCES"), w);
     encryptArrayBuffer := fun _ _ w => (inl (Error "cipher"), w);
     decryptArrayBuffer := fun _ _ w => (inl (Error "cipher"), w);
     arrayBufferToBuffer := fun b => b;
     bufferToArrayBuffer := fun b => b;
     mime_lookup := Sample.lookup;
     mime_contentType := Sample.contentType |}.

End Faulty.

(** ** Statements about recorded requests *)

(** Every request that [m] issues from [st] names the object key [k]. *)
Definition onlyKey {World A : Type} (m : M World A) (st : State World)
    (k : string) : Prop :=
  exists tr, issues m st tr /\
             Forall (fun c => commandKey c = Some (Some k)) tr.

(** No request that [m] issues from [st] names the object key [k]. *)
Definition neverKey {World A : Type} (m : M World A) (st : State World)
    (k : string) : Prop :=
  exists tr, issues m st tr /\
             Forall (fun c => commandKey c <> Some (Some k)) tr.

(** The item [i] is the listing entry [x], field by field. *)
Definition itemOf (x : S3ObjectType) (i : RemoteItem) : Prop :=
  key i = Key x
  /\ Some (lastModified i) = LastModified x
  /\ size i = Size x
  /\ etag i = ETag x
  /\ remoteType i = "s3".

(** The delete request of a listed item. *)
Definition deleteOf (s3Config : S3Config) (element : RemoteItem) : Command :=
  DeleteObjectCommand (s3BucketName s3Config) (key element).

(** The HeadBucket probe resolves with HTTP status 200. *)
Definition probeReports200 {World : Type} (E : Env World) (s3Config : S3Config)
    (st : State World) : Prop :=
  exists r w,
    s3_send E (HeadBucketCommand (s3BucketName s3Config)) (world st)
      = (inr (Some r), w)
    /\ statusIs200 (bucket_metadata r) = true.

(** * Proofs *)

Ltac async_unfold :=
  unfold onlyKey, neverKey, issues, getRemoteMeta, downloadFromRemoteRaw,
    fromS3HeadObjectToRemoteItem, valueOfDate,
    getObjectBodyToArrayBuffer, tryCatch, fireAndForget, bind, call, send,
    ret, throw, diverge in *;
  cbn [fst snd world sent] in *.

(** Case analysis on the next settlement of a collaborator. *)
Ltac settle :=
  match goal with
  | |- context [s3_send ?E ?c ?w] =>
      let r := fresh "r" in
      let w' := fresh "w" in
      let Hs := fresh "Hsend" in
      destruct (s3_send E c w) as [r w'] eqn:Hs; destruct r
  | |- context [readBinary ?E ?p ?w] =>
      let r := fresh "r" in
      destruct (readBinary E p w) as [r ?]; destruct r
  | |- context [writeBinary ?E ?p ?b ?t ?w] =>
      let r := fresh "r" in
      destruct (writeBinary E p b t w) as [r ?]; destruct r
  | |- context [mkdirpInVault ?E ?p ?w] =>
      let r := fresh "r" in
      destruct (mkdirpInVault E p w) as [r ?]; destruct r
  | |- context [encryptArrayBuffer ?E ?b ?p ?w] =>
      let r := fresh "r" in
      destruct (encryptArrayBuffer E b p w) as [r ?]; destruct r
  | |- context [decryptArrayBuffer ?E ?b ?p ?w] =>
      let r := fresh "r" in
      destruct (decryptArrayBuffer E b p w) as [r ?]; destruct r
  end;
  cbn [fst snd world sent].

(** Closing [exists tr, sent st ++ ... = sent st ++ tr /\ Forall P tr]. *)
Ltac trace_done :=
  cbn [fst snd world sent];
  first
    [ exists (@nil Command); split;
      [ symmetry; apply app_nil_r | constructor ]
    | rewrite <- ?app_assoc; eexists; split;
      [ reflexivity | repeat constructor ] ].

Lemma eqb_empty_false (s : string) : s <> "" -> String.eqb s "" = false.
Proof. intros H. destruct (String.eqb_spec s ""); congruence. Qed.

Lemma onlyKey_neverKey {World A : Type} (m : M World A) (st : State World)
    (k k' : string) :
  k' <> k -> onlyKey m st k -> neverKey m st k'.
Proof.
  intros Hne (tr & Htr & Hall). exists tr. split; [exact Htr |].
  eapply Forall_impl; [| exact Hall].
  intros c Hc Hc'. rewrite Hc in Hc'. congruence.
Qed.

Section Encrypted.

Context {World : Type} (E : Env World).
Variables (s3Config : S3Config) (fileOrFolderPath : string).
Variables (password remoteEncryptedKey : string).
Hypothesis Hpw : password <> "".

Lemma upload_onlyKey (isRecursively : bool) (st : State World) :
  onlyKey (uploadToRemote E s3Config fileOrFolderPath isRecursively
             password remoteEncryptedKey) st remoteEncryptedKey.
Proof.
  unfold uploadToRemote. rewrite (eqb_empty_false _ Hpw). cbn [negb].
  destruct (endsWith fileOrFolderPath "/"), isRecursively; cbn [andb negb];
    async_unfold; repeat settle;
    repeat match goal with
           | |- context [head_LastModified ?h] =>
               destruct (head_LastModified h)
           end;
    trace_done.
Qed.

Lemma download_onlyKey (mtime : Z) (st : State World) :
  onlyKey (downloadFromRemote E s3Config fileOrFolderPath mtime
             password remoteEncryptedKey) st remoteEncryptedKey.
Proof.
  unfold downloadFromRemote. rewrite (eqb_empty_false _ Hpw). cbn [negb].
  async_unfold. settle; [trace_done |].
  destruct (endsWith fileOrFolderPath "/"); [trace_done |].
  settle; [trace_done |].
  match goal with
  | g : Reply (GetObjectCommand _ _) |- _ =>
      destruct g as [chunks [e|] | [e|bytes] | [e|bytes] | shown]
  end; cbn [fst snd world sent]; try trace_done;
    settle; try trace_done; settle; trace_done.
Qed.

Lemma delete_onlyKey (fuel : nat) (st : State World) :
  onlyKey (deleteFromRemote E fuel s3Config fileOrFolderPath
             password remoteEncryptedKey) st remoteEncryptedKey.
Proof.
  unfold deleteFromRemote. rewrite (eqb_empty_false _ Hpw).
  rewrite andb_false_r. cbn [negb].
  destruct (String.eqb fileOrFolderPath "/"); async_unfold;
    [trace_done |].
  settle; [trace_done |].
  destruct (endsWith fileOrFolderPath "/" && true); trace_done.
Qed.

End Encrypted.

(** C5.  With a non-empty password, every request that [uploadToRemote],
    [downloadFromRemote] and [deleteFromRemote] issue names
    [remoteEncryptedKey] as its key; so the plaintext path, when it differs
    from that key, is named by none of them. *)
Theorem encrypted_key_is_the_remote_key
    {World : Type} (E : Env World) (s3Config : S3Config)
    (fileOrFolderPath password remoteEncryptedKey : string)
    (isRecursively : bool) (mtime : Z) (fuel : nat) (st : State World) :
  password <> "" ->
  let up := uploadToRemote E s3Config fileOrFolderPath isRecursively
              password remoteEncryptedKey in
  let down := downloadFromRemote E s3Config fileOrFolderPath mtime
                password remoteEncryptedKey in
  let del := deleteFromRemote E fuel s3Config fileOrFolderPath
               password remoteEncryptedKey in
  (onlyKey up st remoteEncryptedKey
   /\ onlyKey down st remoteEncryptedKey
   /\ onlyKey del st remoteEncryptedKey)
  /\ (fileOrFolderPath <> remoteEncryptedKey ->
      neverKey up st fileOrFolderPath
      /\ neverKey down st fileOrFolderPath
      /\ neverKey del st fileOrFolderPath).
Proof.
  intros Hpw up down del.
  assert (Hup := upload_onlyKey E s3Config fileOrFolderPath password
                   remoteEncryptedKey Hpw isRecursively st).
  assert (Hdown := download_onlyKey E s3Config fileOrFolderPath password
                     remoteEncryptedKey Hpw mtime st).
  assert (Hdel := delete_onlyKey E s3Config fileOrFolderPath password
                    remoteEncryptedKey Hpw fuel st).
  split; [auto |].
  intros Hne. repeat split; eapply onlyKey_neverKey; eauto.
Qed.

Lemma encrypted_key_is_the_remote_key_witness :
  "hunter2" <> ""
  /\ onlyKey (uploadToRemote (Sample.env Sample.onePage) Sample.cfg
                "notes/a.md" false "hunter2" "kX3e9") Sample.start "kX3e9"
  /\ neverKey (deleteFromRemote (Sample.env Sample.onePage) 1 Sample.cfg
                 "notes/a.md" "hunter2" "kX3e9") Sample.start "notes/a.md".
Proof.
  assert (Hpw : "hunter2" <> "") by discriminate.
  assert (Hne : "notes/a.md" <> "kX3e9") by discriminate.
  pose proof (encrypted_key_is_the_remote_key (Sample.env Sample.onePage)
                Sample.cfg "notes/a.md" "hunter2" "kX3e9" false 0%Z 1
                Sample.start Hpw) as H.
  cbv zeta in H. destruct H as [[Hup _] Hnever].
  destruct (Hnever Hne) as (_ & _ & Hdel).
  repeat split; assumption.
Defined.

(** C6.  [deleteFromRemote] on the root path ["/"] returns at once: whatever
    the password and the encrypted key, no request is issued and the outside
    world is left as it was. *)
Theorem delete_root_is_noop
    {World : Type} (E : Env World) (fuel : nat) (s3Config : S3Config)
    (password remoteEncryptedKey : string) (st : State World) :
  deleteFromRemote E fuel s3Config "/" password remoteEncryptedKey st
  = (Ok tt, st).
Proof. reflexivity. Qed.

(** C7.  [uploadToRemote] on a directory marker with [isRecursively = true]
    throws its "not implemented" error with the state untouched: nothing has
    been read, encrypted or sent. *)
Theorem upload_recursive_folder_fails_fast
    {World : Type} (E : Env World) (s3Config : S3Config)
    (fileOrFolderPath password remoteEncryptedKey : string)
    (st : State World) :
  endsWith fileOrFolderPath "/" = true ->
  uploadToRemote E s3Config fileOrFolderPath true password remoteEncryptedKey
    st
  = (Throw (Error "upload function doesn't implement recursive function yet!"),
     st).
Proof.
  intros Hfolder. unfold uploadToRemote. rewrite Hfolder. reflexivity.
Qed.

Lemma upload_recursive_folder_fails_fast_witness :
  endsWith "notes/" "/" = true
  /\ uploadToRemote (Sample.env Sample.onePage) Sample.cfg "notes/" true
       "" "" Sample.start
     = (Throw
          (Error "upload function doesn't implement recursive function yet!"),
        Sample.start).
Proof.
  split; [reflexivity |].
  apply (upload_recursive_folder_fails_fast (Sample.env Sample.onePage)
           Sample.cfg "notes/" "" "" Sample.start).
  reflexivity.
Defined.

(** C8.  [checkConnectivity] always returns a boolean: it never throws and
    never hangs, it issues the single HeadBucket probe, and the boolean is
    [true] exactly when the probe resolves with HTTP status 200; a rejected
    probe and a response without that status both give [false]. *)
Theorem checkConnectivity_total
    {World : Type} (E : Env World) (s3Config : S3Config) (st : State World) :
  exists b st',
    checkConnectivity E s3Config st = (Ok b, st')
    /\ sent st' = (sent st ++ [HeadBucketCommand (s3BucketName s3Config)])%list
    /\ (b = true <-> probeReports200 E s3Config st).
Proof.
  unfold checkConnectivity, probeReports200. async_unfold.
  destruct (s3_send E (HeadBucketCommand (s3BucketName s3Config)) (world st))
    as [[e | [[[[[code |]] |]] |]] w]; cbn [fst snd world sent].
  - exists false. eexists. repeat split; try discriminate.
    intros (r & w' & Heq & _). discriminate.
  - exists (Z.eqb code 200). eexists. repeat split.
    + intros Hb. do 2 eexists. split; [reflexivity | exact Hb].
    + intros (r & w' & Heq & Hr). inversion Heq; subst. exact Hr.
  - exists false. eexists. repeat split; try discriminate.
    intros (r & w' & Heq & Hr). inversion Heq; subst. discriminate.
  - exists false. eexists. repeat split; try discriminate.
    intros (r & w' & Heq & Hr). inversion Heq; subst. discriminate.
  - exists false. eexists. repeat split; try discriminate.
    intros (r & w' & Heq & _). discriminate.
Qed.

(** Against C9 as stated: for ["notes/todo.md"] the MIME type looked up from
    the extension is [text/markdown], and the upload sends
    [text/markdown; charset=utf-8], the answer of [mime.contentType] to that
    type. *)
Lemma looked_up_type_is_not_what_is_sent :
  let wr := Upload 20 5242880 false "vault-backup" (Some "notes/todo.md")
              [Byte.x68; Byte.x69] "text/markdown; charset=utf-8" in
  endsWith "notes/todo.md" "/" = false
  /\ mime_lookup (Sample.env Sample.onePage) "notes/todo.md"
     = Some "text/markdown"
  /\ issues (uploadToRemote (Sample.env Sample.onePage) Sample.cfg
               "notes/todo.md" false "" "") Sample.start
       [wr; HeadObjectCommand "vault-backup" (Some "notes/todo.md")]
  /\ commandContentType wr
     <> Some (or_else (mime_lookup (Sample.env Sample.onePage)
                         "notes/todo.md")
                "application/octet-stream").
Proof.
  cbv zeta. split; [reflexivity |]. split; [reflexivity |].
  split; [reflexivity |]. discriminate.
Qed.

(** C9 (amended).  A file upload (key not ending in ["/"]) whose content has
    been read sends one write request, the multipart upload, and its
    content type is: with an empty password, the answer of
    [mime.contentType] to the MIME type that [mime.lookup] finds for the
    path (to [application/octet-stream] when it finds none), and
    [application/octet-stream] when [mime.contentType] answers nothing;
    with a non-empty password, once the content is encrypted,
    [application/octet-stream] whatever the path. *)
Theorem file_upload_content_type
    {World : Type} (E : Env World) (s3Config : S3Config)
    (fileOrFolderPath password remoteEncryptedKey : string)
    (isRecursively : bool) (st : State World)
    (content : ArrayBuffer) (w1 : World) :
  endsWith fileOrFolderPath "/" = false ->
  readBinary E fileOrFolderPath (world st) = (inr content, w1) ->
  let up := uploadToRemote E s3Config fileOrFolderPath isRecursively
              password remoteEncryptedKey in
  let sends (ct : string) : Prop :=
    exists wr tr,
      issues up st (wr :: tr)
      /\ isWrite wr = true
      /\ commandContentType wr = Some ct
      /\ Forall (fun c => isWrite c = false) tr in
  (password = "" ->
   sends
     (or_else
        (mime_contentType E
           (or_else (mime_lookup E fileOrFolderPath)
              "application/octet-stream"))
        "application/octet-stream")
   /\ (mime_contentType E
         (or_else (mime_lookup E fileOrFolderPath)
            "application/octet-stream") = None ->
       sends "application/octet-stream"))
  /\ (password <> "" ->
      forall (cipher : ArrayBuffer) (w2 : World),
        encryptArrayBuffer E content password w1 = (inr cipher, w2) ->
        sends "application/octet-stream").
Proof.
  intros Hfile Hread up sends.
  assert (Hplain :
    password = "" ->
    sends
      (or_else
         (mime_contentType E
            (or_else (mime_lookup E fileOrFolderPath)
               "application/octet-stream"))
         "application/octet-stream")).
  { intros Hpw. subst sends up password.
    unfold uploadToRemote, fileContentType, DEFAULT_CONTENT_TYPE.
    rewrite Hfile. cbn [andb String.eqb negb].
    async_unfold. rewrite Hread. cbn [fst snd world sent].
    settle; [| settle; [| destruct (head_LastModified _)]];
      rewrite <- ?app_assoc; do 2 eexists;
      (split; [reflexivity |]); (split; [reflexivity |]);
      (split; [reflexivity | repeat constructor]). }
  split.
  - intros Hpw. split; [exact (Hplain Hpw) |].
    intros Hnone. specialize (Hplain Hpw). rewrite Hnone in Hplain.
    exact Hplain.
  - intros Hpw cipher w2 Henc. subst sends up.
    unfold uploadToRemote, fileContentType, DEFAULT_CONTENT_TYPE.
    rewrite Hfile. rewrite (eqb_empty_false _ Hpw). cbn [andb negb].
    async_unfold. rewrite Hread. cbn [fst snd world sent].
    rewrite Henc. cbn [fst snd world sent].
    settle; [| settle; [| destruct (head_LastModified _)]];
      rewrite <- ?app_assoc; do 2 eexists;
      (split; [reflexivity |]); (split; [reflexivity |]);
      (split; [reflexivity | repeat constructor]).
Qed.

Lemma file_upload_content_type_witness :
  let sends (path password remoteEncryptedKey ct : string) : Prop :=
    exists wr tr,
      issues (uploadToRemote (Sample.env Sample.onePage) Sample.cfg path
                false password remoteEncryptedKey) Sample.start (wr :: tr)
      /\ isWrite wr = true
      /\ commandContentType wr = Some ct
      /\ Forall (fun c => isWrite c = false) tr in
  endsWith "notes/todo.md" "/" = false
  /\ endsWith "notes/LICENSE" "/" = false
  /\ sends "notes/todo.md" "" "" "text/markdown; charset=utf-8"
  /\ sends "notes/LICENSE" "" "" "application/octet-stream"
  /\ sends "notes/todo.md" "hunter2" "kX3e9" "application/octet-stream".
Proof.
  cbv zeta.
  assert (Hmd : endsWith "notes/todo.md" "/" = false) by reflexivity.
  assert (Hlic : endsWith "notes/LICENSE" "/" = false) by reflexivity.
  assert (Hpw : "hunter2" <> "") by discriminate.
  split; [exact Hmd |]. split; [exact Hlic |]. split; [| split].
  - exact (proj1 (proj1 (file_upload_content_type (Sample.env Sample.onePage)
                           Sample.cfg "notes/todo.md" "" "" false
                           Sample.start [Byte.x68; Byte.x69] tt
                           Hmd eq_refl) eq_refl)).
  - exact (proj1 (proj1 (file_upload_content_type (Sample.env Sample.onePage)
                           Sample.cfg "notes/LICENSE" "" "" false
                           Sample.start [Byte.x68; Byte.x69] tt
                           Hlic eq_refl) eq_refl)).
  - exact (proj2 (file_upload_content_type (Sample.env Sample.onePage)
                    Sample.cfg "notes/todo.md" "hunter2" "kX3e9" false
                    Sample.start [Byte.x68; Byte.x69] tt Hmd eq_refl)
             Hpw [Byte.x69; Byte.x68] tt eq_refl).
Defined.

(** In the sample bucket an upload succeeds unless it is the recursive upload
    of a directory marker. *)
Lemma sample_upload_returns (s3Config : S3Config)
    (fileOrFolderPath password remoteEncryptedKey : string)
    (isRecursively : bool) :
  endsWith fileOrFolderPath "/" && isRecursively = false ->
  exists item st',
    uploadToRemote (Sample.env Sample.onePage) s3Config fileOrFolderPath
      isRecursively password remoteEncryptedKey Sample.start
    = (Ok item, st').
Proof.
  intros Hcombo. unfold uploadToRemote. rewrite Hcombo.
  destruct (endsWith fileOrFolderPath "/" && negb isRecursively);
    destruct (String.eqb password ""); cbn; do 2 eexists; reflexivity.
Qed.

(** C10.  On a path that is not a directory marker [uploadToRemote] does the
    same with [isRecursively = true] as with [false]; and the upload is one
    that fails whatever its collaborators do exactly when the path is a
    directory marker and [isRecursively] is [true]. *)
Theorem isRecursively_ignored_on_files
    (s3Config : S3Config)
    (fileOrFolderPath password remoteEncryptedKey : string) :
  (endsWith fileOrFolderPath "/" = false ->
   forall (World : Type) (E : Env World) (st : State World),
     uploadToRemote E s3Config fileOrFolderPath true
       password remoteEncryptedKey st
     = uploadToRemote E s3Config fileOrFolderPath false
         password remoteEncryptedKey st)
  /\ (forall isRecursively : bool,
        (forall (World : Type) (E : Env World) (st : State World),
           isThrow (fst (uploadToRemote E s3Config fileOrFolderPath
                           isRecursively password remoteEncryptedKey st))
           = true)
        <-> endsWith fileOrFolderPath "/" && isRecursively = true).
Proof.
  split.
  - intros Hfile World E st. unfold uploadToRemote. rewrite Hfile.
    reflexivity.
  - intros isRecursively. split.
    + intros Hfails.
      destruct (endsWith fileOrFolderPath "/" && isRecursively) eqn:Hcombo;
        [reflexivity |].
      destruct (sample_upload_returns s3Config fileOrFolderPath password
                  remoteEncryptedKey isRecursively Hcombo)
        as (item & st' & Hrun).
      specialize (Hfails unit (Sample.env Sample.onePage) Sample.start).
      rewrite Hrun in Hfails. discriminate.
    + intros Hcombo World E st. unfold uploadToRemote. rewrite Hcombo.
      reflexivity.
Qed.

Lemma isRecursively_ignored_on_files_witness :
  endsWith "notes/todo.md" "/" = false
  /\ uploadToRemote (Sample.env Sample.onePage) Sample.cfg "notes/todo.md"
       true "" "" Sample.start
     = uploadToRemote (Sample.env Sample.onePage) Sample.cfg "notes/todo.md"
         false "" "" Sample.start.
Proof.
  split; [reflexivity |].
  apply (proj1 (isRecursively_ignored_on_files Sample.cfg "notes/todo.md"
                  "" "")).
  reflexivity.
Defined.

(** ** listFromRemote *)

Section Listing.

Context {World : Type} (E : Env World).

Lemma fromS3ObjectToRemoteItem_run (x : S3ObjectType) (st : State World) :
  fromS3ObjectToRemoteItem x st
  = (match LastModified x with
     | Some t =>
         Ok {| key := Key x; lastModified := t; size := Size x;
               remoteType := "s3"; etag := ETag x |}
     | None =>
         Throw (TypeError
                  "Cannot read properties of undefined (reading 'valueOf')")
     end, st).
Proof.
  unfold fromS3ObjectToRemoteItem, valueOfDate, bind, ret, throw.
  destruct (LastModified x); reflexivity.
Qed.

(** Converting the entries neither touches the state nor hangs, and keeps
    keys and order. *)
Lemma mapM_convert (cs : list S3ObjectType) (st : State World) :
  snd (mapM fromS3ObjectToRemoteItem cs st) = st
  /\ fst (mapM fromS3ObjectToRemoteItem cs st) <> Diverge
  /\ (forall items,
        fst (mapM fromS3ObjectToRemoteItem cs st) = Ok items ->
        map key items = map Key cs).
Proof.
  induction cs as [| c cs IH]; cbn [mapM].
  - unfold ret. cbn [fst snd]. repeat split; [discriminate |].
    intros items Hok. inversion Hok. reflexivity.
  - unfold bind, ret. rewrite fromS3ObjectToRemoteItem_run.
    destruct (LastModified c) as [t |]; cbn [fst snd].
    + destruct (mapM fromS3ObjectToRemoteItem cs st) as [[ys | e |] st1];
        cbn [fst snd] in *; destruct IH as (Hst & Hdiv & Hkeys).
      * repeat split; [exact Hst | discriminate |].
        intros items Hok. inversion Hok; subst. cbn [map key].
        f_equal. apply Hkeys. reflexivity.
      * repeat split; [exact Hst | discriminate | discriminate].
      * contradiction.
    + repeat split; discriminate.
Qed.

(** Once a page with status 200 and a contents field reports
    [isTruncated], the round throws: the variable [continuationToken] that
    the check reads still holds its initial empty string. *)
Lemma listLoop_truncated_round (n : nat) (v : ListVars)
    (st : State World) (rsp : ListObjectsV2CommandOutput) (w : World)
    (cs : list S3ObjectType) :
  undefinedOrEmpty (continuationToken v) = true ->
  s3_send E (ListObjectsV2Command (confCmd v)) (world st) = (inr rsp, w) ->
  statusIs200 (list_metadata rsp) = true ->
  Contents rsp = Some cs ->
  truthy (IsTruncated rsp) = true ->
  listLoop E (S n) v st
  = (Throw (Error "isTruncated is true but no continuationToken provided"),
     {| world := w;
        sent := sent st ++ [ListObjectsV2Command (confCmd v)] |}).
Proof.
  intros Htoken Hsend Hstatus Hcontents Htrunc.
  cbn [listLoop]. async_unfold. rewrite Hsend. cbn [fst snd].
  unfold statusIs200 in Hstatus.
  destruct (list_metadata rsp) as [[[code |]] |]; try discriminate.
  cbn [httpStatusCode]. rewrite Hstatus, Hcontents. cbn [negb].
  cbn [isTruncated continuationToken]. rewrite Htrunc, Htoken.
  reflexivity.
Qed.

(** One round is all the loop ever runs from the initial variables: with
    any fuel it ends as it does with fuel 1. *)
Lemma listLoop_single_round (n : nat) (v : ListVars) (st : State World) :
  undefinedOrEmpty (continuationToken v) = true ->
  listLoop E (S n) v st = listLoop E 1 v st.
Proof.
  intros Htoken. cbn [listLoop]. async_unfold.
  destruct (s3_send E (ListObjectsV2Command (confCmd v)) (world st))
    as [[e | rsp] w]; [reflexivity |].
  destruct (list_metadata rsp) as [md |]; [| reflexivity].
  destruct (negb _); [reflexivity |].
  destruct (Contents rsp) as [cs |]; [| reflexivity].
  cbn [isTruncated continuationToken]. rewrite Htoken.
  destruct (truthy (IsTruncated rsp)); reflexivity.
Qed.

Variables (s3Config : S3Config) (prefix : option string).

Lemma listFromRemote_single_round (n : nat) (st : State World) :
  listFromRemote E (S n) s3Config prefix st
  = listFromRemote E 1 s3Config prefix st.
Proof.
  unfold listFromRemote, bind.
  rewrite listLoop_single_round by reflexivity. reflexivity.
Qed.

(** With fuel the listing always ends, after exactly one request. *)
Lemma listFromRemote_terminates (n : nat) (st : State World) :
  fst (listFromRemote E (S n) s3Config prefix st) <> Diverge
  /\ issues (listFromRemote E (S n) s3Config prefix) st
       [firstListRequest s3Config prefix].
Proof.
  rewrite listFromRemote_single_round.
  unfold issues, listFromRemote, firstListRequest. cbn [listLoop].
  async_unfold.
  destruct (s3_send E _ (world st)) as [[e | rsp] w]; cbn [fst snd sent];
    [split; [discriminate | reflexivity] |].
  destruct (list_metadata rsp) as [md |];
    [| split; [discriminate | reflexivity]].
  destruct (negb _); [split; [discriminate | reflexivity] |].
  destruct (Contents rsp) as [cs |].
  - cbn [isTruncated continuationToken undefinedOrEmpty String.eqb].
    rewrite andb_true_r.
    destruct (truthy (IsTruncated rsp));
      [split; [discriminate | reflexivity] |].
    cbn [contents app].
    match goal with
    | |- context [mapM _ ?l ?s] =>
        destruct (mapM_convert l s) as (Hst & Hdiv & _)
    end.
    split; [exact Hdiv | rewrite Hst; reflexivity].
  - cbn [contents mapM]. async_unfold. split; [discriminate | reflexivity].
Qed.

Lemma listFromRemote_truncated_page (n : nat) (st : State World)
    (rsp : ListObjectsV2CommandOutput) (w : World) :
  s3_send E (firstListRequest s3Config prefix) (world st) = (inr rsp, w) ->
  Contents rsp <> None ->
  truthy (IsTruncated rsp) = true ->
  exists e,
    listFromRemote E (S n) s3Config prefix st
    = (Throw e,
       {| world := w;
          sent := sent st ++ [firstListRequest s3Config prefix] |}).
Proof.
  intros Hsend Hcontents Htrunc.
  destruct (Contents rsp) as [cs |] eqn:Hcs; [| congruence].
  destruct (statusIs200 (list_metadata rsp)) eqn:Hstatus.
  - eexists. unfold listFromRemote, bind.
    erewrite listLoop_truncated_round; try eassumption; reflexivity.
  - unfold listFromRemote, firstListRequest in *. cbn [listLoop].
    async_unfold. cbn [confCmd]. rewrite Hsend. cbn [fst snd].
    unfold statusIs200 in Hstatus.
    destruct (list_metadata rsp) as [[[code |]] |]; cbn [httpStatusCode];
      try rewrite Hstatus; cbn [negb]; eexists; reflexivity.
Qed.

(** A listing that returns was built from the one page fetched, entry by
    entry. *)
Lemma listFromRemote_returns (n : nat) (st st' : State World)
    (items : list RemoteItem) :
  listFromRemote E (S n) s3Config prefix st = (Ok items, st') ->
  exists rsp w,
    s3_send E (firstListRequest s3Config prefix) (world st) = (inr rsp, w)
    /\ map key items = map Key (pageEntries rsp).
Proof.
  rewrite listFromRemote_single_round.
  unfold listFromRemote, firstListRequest, pageEntries. cbn [listLoop].
  async_unfold. cbn [confCmd].
  destruct (s3_send E _ (world st)) as [[e | rsp] w]; cbn [fst snd];
    [discriminate |].
  intros Hrun. exists rsp, w. split; [reflexivity |].
  destruct (list_metadata rsp) as [md |]; [| discriminate].
  destruct (negb _); [discriminate |].
  destruct (Contents rsp) as [cs |].
  - cbn [isTruncated continuationToken undefinedOrEmpty String.eqb] in Hrun.
    rewrite andb_true_r in Hrun.
    destruct (truthy (IsTruncated rsp)); [discriminate |].
    cbn [contents app] in Hrun.
    match type of Hrun with
    | mapM _ ?l ?s = _ => destruct (mapM_convert l s) as (_ & _ & Hkeys)
    end.
    apply Hkeys. rewrite Hrun. reflexivity.
  - cbn [contents mapM] in Hrun. async_unfold. inversion Hrun. reflexivity.
Qed.

End Listing.

(** C1.  The listing of ["notes/"] that the bucket splits into a truncated
    page of 1000 entries naming the continuation token ["page-2"] and a last
    page of 37 entries should give 1037 items; [listFromRemote] instead
    throws "isTruncated is true but no continuationToken provided" after the
    first page, having sent the one request, and returns no item. *)
Theorem two_page_listing_throws :
  truthy (IsTruncated Sample.firstPage) = true
  /\ NextContinuationToken Sample.firstPage = Some "page-2"
  /\ length (pageEntries Sample.firstPage) = 1000
  /\ truthy (IsTruncated Sample.secondPage) = false
  /\ length (pageEntries Sample.secondPage) = 37
  /\ forall n : nat,
       listFromRemote (Sample.env Sample.twoPages) (S n) Sample.cfg
         (Some "notes/") Sample.start
       = (Throw
            (Error "isTruncated is true but no continuationToken provided"),
          {| world := tt;
             sent := [firstListRequest Sample.cfg (Some "notes/")] |}).
Proof.
  do 5 (split; [vm_compute; reflexivity |]).
  intros n. unfold listFromRemote, bind.
  erewrite listLoop_truncated_round with (rsp := Sample.firstPage);
    reflexivity.
Qed.

(** Against C2 as stated: a status-200 page without a contents field that
    reports [isTruncated] and names no continuation token makes
    [listFromRemote] return the empty listing; nothing is thrown. *)
Lemma truncated_page_without_contents_returns :
  let rsp := Sample.page None true None in
  let run := listFromRemote (Sample.env Sample.truncatedNoContents) 5
               Sample.cfg (Some "notes/") Sample.start in
  s3_send (Sample.env Sample.truncatedNoContents)
    (firstListRequest Sample.cfg (Some "notes/")) tt = (inr rsp, tt)
  /\ truthy (IsTruncated rsp) = true
  /\ NextContinuationToken rsp = None
  /\ fst run = Ok []
  /\ isThrow (fst run) = false.
Proof. repeat split. Qed.

(** C2 (amended).  If the page that answers the listing request has a
    contents field, reports [isTruncated] and supplies no continuation
    token, [listFromRemote] throws: it has sent that one request, it does
    not go round again and it returns no result. *)
Theorem truncated_page_without_token_throws
    {World : Type} (E : Env World) (n : nat) (s3Config : S3Config)
    (prefix : option string) (st : State World)
    (rsp : ListObjectsV2CommandOutput) (w : World) :
  s3_send E (firstListRequest s3Config prefix) (world st) = (inr rsp, w) ->
  Contents rsp <> None ->
  truthy (IsTruncated rsp) = true ->
  undefinedOrEmpty (NextContinuationToken rsp) = true ->
  exists e,
    listFromRemote E (S n) s3Config prefix st
    = (Throw e,
       {| world := w;
          sent := sent st ++ [firstListRequest s3Config prefix] |}).
Proof.
  intros Hsend Hcontents Htrunc _.
  exact (listFromRemote_truncated_page E s3Config prefix n st rsp w
           Hsend Hcontents Htrunc).
Qed.

Lemma truncated_page_without_token_throws_witness :
  let rsp := Sample.page (Some (Sample.entries 0 3)) true None in
  Contents rsp <> None
  /\ truthy (IsTruncated rsp) = true
  /\ undefinedOrEmpty (NextContinuationToken rsp) = true
  /\ exists e,
       listFromRemote (Sample.env Sample.truncatedNoToken) 1 Sample.cfg
         (Some "notes/") Sample.start
       = (Throw e,
          {| world := tt;
             sent := [firstListRequest Sample.cfg (Some "notes/")] |}).
Proof.
  intros rsp.
  assert (Hcontents : Contents rsp <> None) by discriminate.
  repeat split; [exact Hcontents |].
  exact (truncated_page_without_token_throws
           (Sample.env Sample.truncatedNoToken) 0 Sample.cfg (Some "notes/")
           Sample.start rsp tt eq_refl Hcontents eq_refl eq_refl).
Defined.

(** Against C3 as stated: when the page lists the key ["notes/a.md"] twice,
    so does the result. *)
Lemma repeated_key_is_listed_twice :
  exists items,
    fst (listFromRemote (Sample.env Sample.repeatedKey) 5 Sample.cfg
           (Some "notes/") Sample.start) = Ok items
    /\ map key items = [Some "notes/a.md"; Some "notes/a.md"]
    /\ ~ NoDup (map key items).
Proof.
  eexists. split; [reflexivity |]. split; [reflexivity |].
  cbn [map key]. intros Hnodup. inversion Hnodup as [| x l Hnotin _].
  apply Hnotin. left. reflexivity.
Qed.

(** C3 (amended).  A result of [listFromRemote] lists the entries of the
    page it fetched, one item per entry and in the page's order, without
    removing anything: it contains no two items with the same key exactly
    when that page contains no two entries with the same key. *)
Theorem listing_keys_follow_the_page
    {World : Type} (E : Env World) (n : nat) (s3Config : S3Config)
    (prefix : option string) (st st' : State World)
    (rsp : ListObjectsV2CommandOutput) (w : World)
    (items : list RemoteItem) :
  s3_send E (firstListRequest s3Config prefix) (world st) = (inr rsp, w) ->
  listFromRemote E (S n) s3Config prefix st = (Ok items, st') ->
  map key items = map Key (pageEntries rsp)
  /\ (NoDup (map key items) <-> NoDup (map Key (pageEntries rsp))).
Proof.
  intros Hsend Hrun.
  destruct (listFromRemote_returns E s3Config prefix n st st' items Hrun)
    as (rsp' & w' & Hsend' & Hkeys).
  rewrite Hsend in Hsend'. inversion Hsend'; subst rsp' w'.
  split; [exact Hkeys |]. rewrite Hkeys. reflexivity.
Qed.

Lemma listing_keys_follow_the_page_witness :
  exists items st',
    listFromRemote (Sample.env Sample.onePage) 1 Sample.cfg (Some "notes/")
      Sample.start = (Ok items, st')
    /\ map key items = [Some "notes/0"; Some "notes/1"; Some "notes/2"].
Proof.
  do 2 eexists. split; [reflexivity |].
  exact (proj1 (listing_keys_follow_the_page (Sample.env Sample.onePage) 0
                  Sample.cfg (Some "notes/") Sample.start _
                  (Sample.page (Some (Sample.entries 0 3)) false None) tt _
                  eq_refl eq_refl)).
Defined.

(** ** deleteFromRemote with a password *)

(** With a password, a delete of anything but the root is the single delete
    of the encrypted key, whether or not the path is a directory marker. *)
Lemma encrypted_delete_run
    {World : Type} (E : Env World) (fuel : nat) (s3Config : S3Config)
    (fileOrFolderPath password remoteEncryptedKey : string)
    (st : State World) :
  password <> "" ->
  fileOrFolderPath <> "/" ->
  deleteFromRemote E fuel s3Config fileOrFolderPath password
    remoteEncryptedKey st
  = (send E (DeleteObjectCommand (s3BucketName s3Config)
               (Some remoteEncryptedKey)) ;;; ret tt) st.
Proof.
  intros Hpw Hroot. unfold deleteFromRemote.
  rewrite (eqb_empty_false _ Hpw).
  destruct (String.eqb_spec fileOrFolderPath "/"); [contradiction |].
  rewrite andb_false_r. cbn [negb].
  destruct (endsWith fileOrFolderPath "/" && true); reflexivity.
Qed.

(** C4.  [deleteFromRemote] on the directory marker ["notes/"] with the
    password ["hunter2"] should surface an "unsupported" error; it sends the
    one delete of the encrypted key and returns normally, leaving what lies
    under the directory alone and telling the caller nothing. *)
Theorem encrypted_folder_delete_is_silent :
  endsWith "notes/" "/" = true
  /\ "hunter2" <> ""
  /\ forall fuel : nat,
       deleteFromRemote (Sample.env Sample.onePage) fuel Sample.cfg
         "notes/" "hunter2" "kX3e9" Sample.start
       = (Ok tt,
          {| world := tt;
             sent := [DeleteObjectCommand "vault-backup" (Some "kX3e9")] |}).
Proof.
  split; [reflexivity |]. split; [discriminate |].
  intros fuel. rewrite encrypted_delete_run by discriminate. reflexivity.
Qed.

(** * Further properties *)

(** ** getS3Client *)

(** X1.  Whatever endpoint the configuration holds, the endpoint the client
    is built with starts with ["http://"] or ["https://"]. *)
Theorem getS3Client_endpoint_has_scheme (s3Config : S3Config) :
  startsWith (endpoint (getS3Client s3Config)) "http://"
  || startsWith (endpoint (getS3Client s3Config)) "https://" = true.
Proof.
  unfold getS3Client. cbn [endpoint].
  destruct (startsWith (s3Endpoint s3Config) "http://"
            || startsWith (s3Endpoint s3Config) "https://") eqn:Hscheme;
    cbn [negb]; [exact Hscheme |].
  apply orb_true_iff. right. unfold startsWith. cbn.
  destruct (s3Endpoint s3Config); reflexivity.
Qed.

(** X2.  Normalising the endpoint is idempotent: building the client from a
    configuration that already holds the normalised endpoint gives the same
    client, so the scheme is never prepended twice. *)
Theorem getS3Client_idempotent (s3Config : S3Config) :
  getS3Client (withEndpoint s3Config (endpoint (getS3Client s3Config)))
  = getS3Client s3Config.
Proof.
  pose proof (getS3Client_endpoint_has_scheme s3Config) as Hscheme.
  unfold getS3Client at 1. unfold withEndpoint.
  cbn [s3Endpoint s3Region s3AccessKeyID s3SecretAccessKey].
  rewrite Hscheme. cbn [negb]. reflexivity.
Qed.

(** ** What a transfer does not consult *)

(** X3.  With an empty password the argument [remoteEncryptedKey] plays no
    part: upload, download and delete run the same whatever it is. *)
Theorem plain_transfer_ignores_encrypted_key
    {World : Type} (E : Env World) (s3Config : S3Config)
    (fileOrFolderPath k1 k2 : string) (isRecursively : bool) (mtime : Z)
    (fuel : nat) (st : State World) :
  uploadToRemote E s3Config fileOrFolderPath isRecursively "" k1 st
  = uploadToRemote E s3Config fileOrFolderPath isRecursively "" k2 st
  /\ downloadFromRemote E s3Config fileOrFolderPath mtime "" k1 st
     = downloadFromRemote E s3Config fileOrFolderPath mtime "" k2 st
  /\ deleteFromRemote E fuel s3Config fileOrFolderPath "" k1 st
     = deleteFromRemote E fuel s3Config fileOrFolderPath "" k2 st.
Proof. repeat split. Qed.

(** X4.  With an empty password neither upload nor download consults the
    cipher: replacing [encryptArrayBuffer] and [decryptArrayBuffer] by any
    other functions changes nothing in the run. *)
Theorem plain_transfer_ignores_cipher
    {World : Type} (E : Env World)
    (enc dec : ArrayBuffer -> string -> World -> (JsError + ArrayBuffer) * World)
    (s3Config : S3Config) (fileOrFolderPath remoteEncryptedKey : string)
    (isRecursively : bool) (mtime : Z) (st : State World) :
  uploadToRemote (withCipher E enc dec) s3Config fileOrFolderPath
    isRecursively "" remoteEncryptedKey st
  = uploadToRemote E s3Config fileOrFolderPath isRecursively ""
      remoteEncryptedKey st
  /\ downloadFromRemote (withCipher E enc dec) s3Config fileOrFolderPath
       mtime "" remoteEncryptedKey st
     = downloadFromRemote E s3Config fileOrFolderPath mtime ""
         remoteEncryptedKey st.
Proof. split; reflexivity. Qed.

(** X5.  With a non-empty password the upload never consults the MIME
    table: replacing [mime.lookup] and [mime.contentType] by any other
    functions changes nothing in the run. *)
Theorem encrypted_upload_ignores_mime
    {World : Type} (E : Env World)
    (lookup contentType : string -> option string)
    (s3Config : S3Config)
    (fileOrFolderPath password remoteEncryptedKey : string)
    (isRecursively : bool) (st : State World) :
  password <> "" ->
  uploadToRemote (withMime E lookup contentType) s3Config fileOrFolderPath
    isRecursively password remoteEncryptedKey st
  = uploadToRemote E s3Config fileOrFolderPath isRecursively password
      remoteEncryptedKey st.
Proof.
  intros Hpw. unfold uploadToRemote, fileContentType.
  rewrite (eqb_empty_false _ Hpw). reflexivity.
Qed.

Lemma encrypted_upload_ignores_mime_witness :
  "hunter2" <> ""
  /\ uploadToRemote
       (withMime (Sample.env Sample.onePage)
          (fun _ => Some "text/html") (fun _ => None))
       Sample.cfg "notes/todo.md" false "hunter2" "kX3e9" Sample.start
     = uploadToRemote (Sample.env Sample.onePage) Sample.cfg "notes/todo.md"
         false "hunter2" "kX3e9" Sample.start.
Proof.
  assert (Hpw : "hunter2" <> "") by discriminate.
  split; [exact Hpw |].
  exact (encrypted_upload_ignores_mime (Sample.env Sample.onePage)
           (fun _ => Some "text/html") (fun _ => None) Sample.cfg
           "notes/todo.md" "hunter2" "kX3e9" false Sample.start Hpw).
Defined.

(** ** uploadToRemote *)

(** X6.  An upload that returns has issued exactly one write followed by the
    HeadObject of the same key, and the item it returns carries that remote
    key: the encrypted key when a password is set, the path otherwise. *)
Theorem upload_returns_item_of_remote_key
    {World : Type} (E : Env World) (s3Config : S3Config)
    (fileOrFolderPath password remoteEncryptedKey : string)
    (isRecursively : bool) (st st' : State World) (item : RemoteItem) :
  uploadToRemote E s3Config fileOrFolderPath isRecursively password
    remoteEncryptedKey st = (Ok item, st') ->
  let k := if String.eqb password "" then fileOrFolderPath
           else remoteEncryptedKey in
  key item = Some k
  /\ remoteType item = "s3"
  /\ exists wr,
       isWrite wr = true
       /\ commandKey wr = Some (Some k)
       /\ sent st'
          = (sent st
             ++ [wr; HeadObjectCommand (s3BucketName s3Config) (Some k)])%list.
Proof.
  unfold uploadToRemote.
  destruct (String.eqb password ""), (endsWith fileOrFolderPath "/"),
    isRecursively; cbn [andb negb]; async_unfold; try discriminate;
    repeat settle; try discriminate;
    repeat match goal with
           | |- context [head_LastModified ?h] =>
               destruct (head_LastModified h)
           end;
    try discriminate;
    intros Hrun; inversion Hrun; subst; cbn [key remoteType sent];
    (split; [reflexivity |]); (split; [reflexivity |]);
    eexists; rewrite <- app_assoc;
    (split; [| split; [| reflexivity]]); reflexivity.
Qed.

Lemma upload_returns_item_of_remote_key_witness :
  exists item st',
    uploadToRemote (Sample.env Sample.onePage) Sample.cfg "notes/todo.md"
      false "hunter2" "kX3e9" Sample.start = (Ok item, st')
    /\ key item = Some "kX3e9".
Proof.
  do 2 eexists. split; [lazy; reflexivity |].
  exact (proj1 (upload_returns_item_of_remote_key
                  (Sample.env Sample.onePage) Sample.cfg "notes/todo.md"
                  "hunter2" "kX3e9" false Sample.start _ _ eq_refl)).
Defined.

(** X7.  What a file upload sends is what it read: without a password the
    first request is the multipart upload (20 parts in flight, 5 MiB parts,
    parts not left behind on error) of the file's content to the path; with
    a password it is the upload of the cipher's output to the encrypted
    key. *)
Theorem file_upload_body
    {World : Type} (E : Env World) (s3Config : S3Config)
    (fileOrFolderPath password remoteEncryptedKey : string)
    (isRecursively : bool) (st : State World)
    (content : ArrayBuffer) (w1 : World) :
  endsWith fileOrFolderPath "/" = false ->
  readBinary E fileOrFolderPath (world st) = (inr content, w1) ->
  let up := uploadToRemote E s3Config fileOrFolderPath isRecursively
              password remoteEncryptedKey in
  (password = "" ->
   exists tr,
     issues up st
       (Upload 20 5242880 false (s3BucketName s3Config)
          (Some fileOrFolderPath) (arrayBufferToBuffer E content)
          (fileContentType E fileOrFolderPath "") :: tr)
     /\ Forall (fun c => isWrite c = false) tr)
  /\ (password <> "" ->
      forall (cipher : ArrayBuffer) (w2 : World),
        encryptArrayBuffer E content password w1 = (inr cipher, w2) ->
        exists tr,
          issues up st
            (Upload 20 5242880 false (s3BucketName s3Config)
               (Some remoteEncryptedKey) (arrayBufferToBuffer E cipher)
               "application/octet-stream" :: tr)
          /\ Forall (fun c => isWrite c = false) tr).
Proof.
  intros Hfile Hread up. subst up. unfold uploadToRemote. rewrite Hfile.
  cbn [andb]. split.
  - intros Hpw. subst password. cbn [String.eqb negb].
    async_unfold. rewrite Hread. cbn [fst snd world sent].
    settle; [| settle; [| destruct (head_LastModified _)]];
      rewrite <- ?app_assoc; eexists;
      (split; [reflexivity | repeat constructor]).
  - intros Hpw cipher w2 Henc.
    unfold fileContentType. rewrite (eqb_empty_false _ Hpw). cbn [negb].
    async_unfold. rewrite Hread. cbn [fst snd world sent].
    rewrite Henc. cbn [fst snd world sent].
    settle; [| settle; [| destruct (head_LastModified _)]];
      rewrite <- ?app_assoc; eexists;
      (split; [reflexivity | repeat constructor]).
Qed.

Lemma file_upload_body_witness :
  endsWith "notes/todo.md" "/" = false
  /\ exists tr,
       issues (uploadToRemote (Sample.env Sample.onePage) Sample.cfg
                 "notes/todo.md" false "hunter2" "kX3e9") Sample.start
         (Upload 20 5242880 false "vault-backup" (Some "kX3e9")
            [Byte.x69; Byte.x68] "application/octet-stream" :: tr)
       /\ Forall (fun c => isWrite c = false) tr.
Proof.
  assert (Hfile : endsWith "notes/todo.md" "/" = false) by reflexivity.
  assert (Hpw : "hunter2" <> "") by discriminate.
  split; [exact Hfile |].
  exact (proj2 (file_upload_body (Sample.env Sample.onePage) Sample.cfg
                  "notes/todo.md" "hunter2" "kX3e9" false Sample.start
                  [Byte.x68; Byte.x69] tt Hfile eq_refl)
           Hpw [Byte.x69; Byte.x68] tt eq_refl).
Defined.

(** X8.  A file upload whose local side fails sends nothing: when the file
    cannot be read, or when encrypting it fails, the error is the caller's
    and no request has been issued. *)
Theorem file_upload_local_failure
    {World : Type} (E : Env World) (s3Config : S3Config)
    (fileOrFolderPath password remoteEncryptedKey : string)
    (isRecursively : bool) (st : State World) :
  endsWith fileOrFolderPath "/" = false ->
  let up := uploadToRemote E s3Config fileOrFolderPath isRecursively
              password remoteEncryptedKey in
  (forall e w1,
     readBinary E fileOrFolderPath (world st) = (inl e, w1) ->
     up st = (Throw e, {| world := w1; sent := sent st |}))
  /\ (forall content w1 e w2,
        password <> "" ->
        readBinary E fileOrFolderPath (world st) = (inr content, w1) ->
        encryptArrayBuffer E content password w1 = (inl e, w2) ->
        up st = (Throw e, {| world := w2; sent := sent st |})).
Proof.
  intros Hfile up. subst up. unfold uploadToRemote. rewrite Hfile.
  cbn [andb]. split.
  - intros e w1 Hread. async_unfold. rewrite Hread. reflexivity.
  - intros content w1 e w2 Hpw Hread Henc.
    rewrite (eqb_empty_false _ Hpw). cbn [negb].
    async_unfold. rewrite Hread. cbn [fst snd world sent].
    rewrite Henc. reflexivity.
Qed.

Lemma file_upload_local_failure_witness :
  endsWith "notes/todo.md" "/" = false
  /\ uploadToRemote Faulty.unreadable Sample.cfg "notes/todo.md" false
       "" "" Sample.start
     = (Throw (Error "ENOENT"), Sample.start).
Proof.
  assert (Hfile : endsWith "notes/todo.md" "/" = false) by reflexivity.
  split; [exact Hfile |].
  exact (proj1 (file_upload_local_failure Faulty.unreadable Sample.cfg
                  "notes/todo.md" "" "" false Sample.start Hfile)
           (Error "ENOENT") tt eq_refl).
Defined.

(** X9.  The upload of a directory marker (not recursive) starts with a
    PutObject of an empty body with content type [application/octet-stream]
    on the remote key, follows it with at most the HeadObject of that key,
    and sends nothing else; it runs the same whatever [readBinary] and the
    cipher would do, so nothing local is read or encrypted. *)
Theorem folder_upload_writes_empty_marker
    {World : Type} (E : Env World) (s3Config : S3Config)
    (fileOrFolderPath password remoteEncryptedKey : string)
    (st : State World) :
  endsWith fileOrFolderPath "/" = true ->
  let k := if String.eqb password "" then fileOrFolderPath
           else remoteEncryptedKey in
  let up := uploadToRemote E s3Config fileOrFolderPath false password
              remoteEncryptedKey in
  (exists tr,
     issues up st
       (PutObjectCommand (s3BucketName s3Config) (Some k) []
          "application/octet-stream" :: tr)
     /\ (tr = []
         \/ tr = [HeadObjectCommand (s3BucketName s3Config) (Some k)]))
  /\ (forall read enc dec,
        uploadToRemote (withCipher (withReadBinary E read) enc dec)
          s3Config fileOrFolderPath false password remoteEncryptedKey st
        = up st).
Proof.
  intros Hfolder k up. subst k up. unfold uploadToRemote. rewrite Hfolder.
  cbn [andb negb]. split; [| reflexivity].
  destruct (String.eqb password ""); cbn [negb]; async_unfold;
    (settle; [| settle; [| destruct (head_LastModified _)]]);
    rewrite <- ?app_assoc; eexists;
    (split; [reflexivity | auto]).
Qed.

Lemma folder_upload_writes_empty_marker_witness :
  endsWith "notes/" "/" = true
  /\ exists tr,
       issues (uploadToRemote (Sample.env Sample.onePage) Sample.cfg
                 "notes/" false "" "") Sample.start
         (PutObjectCommand "vault-backup" (Some "notes/") []
            "application/octet-stream" :: tr)
       /\ (tr = [] \/ tr = [HeadObjectCommand "vault-backup" (Some "notes/")]).
Proof.
  assert (Hfolder : endsWith "notes/" "/" = true) by reflexivity.
  split; [exact Hfolder |].
  exact (proj1 (folder_upload_writes_empty_marker
                  (Sample.env Sample.onePage) Sample.cfg "notes/" "" ""
                  Sample.start Hfolder)).
Defined.

(** ** downloadFromRemote *)

(** X10.  The download of a directory marker is the local [mkdirpInVault]
    and nothing more: no request is sent, nothing is decrypted or written,
    whatever the password. *)
Theorem folder_download_is_local
    {World : Type} (E : Env World) (s3Config : S3Config)
    (fileOrFolderPath password remoteEncryptedKey : string) (mtime : Z)
    (st : State World) :
  endsWith fileOrFolderPath "/" = true ->
  downloadFromRemote E s3Config fileOrFolderPath mtime password
    remoteEncryptedKey st
  = call (mkdirpInVault E fileOrFolderPath) st.
Proof.
  intros Hfolder. unfold downloadFromRemote. rewrite Hfolder.
  async_unfold.
  destruct (mkdirpInVault E fileOrFolderPath (world st)) as [[e | []] w];
    reflexivity.
Qed.

Lemma folder_download_is_local_witness :
  endsWith "notes/" "/" = true
  /\ downloadFromRemote (Sample.env Sample.onePage) Sample.cfg "notes/"
       1650000000000 "hunter2" "kX3e9" Sample.start
     = (Ok tt, Sample.start).
Proof.
  assert (Hfolder : endsWith "notes/" "/" = true) by reflexivity.
  split; [exact Hfolder |].
  exact (folder_download_is_local (Sample.env Sample.onePage) Sample.cfg
           "notes/" "hunter2" "kX3e9" 1650000000000 Sample.start Hfolder).
Defined.

(** X11.  The download of a file makes the local directories first, fetches
    the object under the remote key, and ends with the one [writeBinary] at
    the plaintext path with the requested mtime: of the fetched bytes without
    a password, of what the cipher made of them with one.  When decryption
    fails the error is the caller's and nothing is written. *)
Theorem file_download_writes_fetched_content
    {World : Type} (E : Env World) (s3Config : S3Config)
    (fileOrFolderPath password remoteEncryptedKey : string) (mtime : Z)
    (st : State World) (w1 w2 : World) (body : GetObjectBody)
    (bytes : ArrayBuffer) :
  endsWith fileOrFolderPath "/" = false ->
  let k := if String.eqb password "" then fileOrFolderPath
           else remoteEncryptedKey in
  let fetch := GetObjectCommand (s3BucketName s3Config) (Some k) in
  let down := downloadFromRemote E s3Config fileOrFolderPath mtime password
                remoteEncryptedKey in
  mkdirpInVault E fileOrFolderPath (world st) = (inr tt, w1) ->
  s3_send E fetch w1 = (inr body, w2) ->
  (forall s, getObjectBodyToArrayBuffer E body s = (Ok bytes, s)) ->
  (password = "" ->
   down st
   = call (writeBinary E fileOrFolderPath bytes mtime)
       {| world := w2; sent := sent st ++ [fetch] |})
  /\ (password <> "" ->
      (forall plain w3,
         decryptArrayBuffer E bytes password w2 = (inr plain, w3) ->
         down st
         = call (writeBinary E fileOrFolderPath plain mtime)
             {| world := w3; sent := sent st ++ [fetch] |})
      /\ (forall e w3,
            decryptArrayBuffer E bytes password w2 = (inl e, w3) ->
            down st
            = (Throw e, {| world := w3; sent := sent st ++ [fetch] |}))).
Proof.
  intros Hfile k fetch down Hmk Hget Hbody. subst k fetch down.
  unfold downloadFromRemote, downloadFromRemoteRaw. rewrite Hfile. split.
  - intros Hpw. subst password. cbn [String.eqb negb] in *.
    unfold bind at 1. unfold call at 1. rewrite Hmk. cbn [world sent].
    unfold bind at 1. unfold bind at 1. unfold send at 1.
    cbn [world sent]. rewrite Hget. rewrite Hbody. reflexivity.
  - intros Hpw. rewrite (eqb_empty_false _ Hpw) in *. cbn [negb].
    split.
    + intros plain w3 Hdec.
      unfold bind at 1. unfold call at 1. rewrite Hmk. cbn [world sent].
      unfold bind at 1. unfold bind at 1. unfold send at 1.
      cbn [world sent]. rewrite Hget. rewrite Hbody.
      unfold bind at 1. unfold call at 1. cbn [world sent].
      rewrite Hdec. reflexivity.
    + intros e w3 Hdec.
      unfold bind at 1. unfold call at 1. rewrite Hmk. cbn [world sent].
      unfold bind at 1. unfold bind at 1. unfold send at 1.
      cbn [world sent]. rewrite Hget. rewrite Hbody.
      unfold bind at 1. unfold call at 1. cbn [world sent].
      rewrite Hdec. reflexivity.
Qed.

Lemma file_download_writes_fetched_content_witness :
  endsWith "notes/todo.md" "/" = false
  /\ downloadFromRemote (withClient (Sample.env Sample.onePage)
                           Faulty.streamedBody)
       Sample.cfg "notes/todo.md" 1650000000000 "hunter2" "kX3e9"
       Sample.start
     = (Ok tt,
        {| world := tt;
           sent := [GetObjectCommand "vault-backup" (Some "kX3e9")] |}).
Proof.
  assert (Hfile : endsWith "notes/todo.md" "/" = false) by reflexivity.
  assert (Hpw : "hunter2" <> "") by discriminate.
  split; [exact Hfile |].
  exact (proj1 (proj2 (file_download_writes_fetched_content
                         (withClient (Sample.env Sample.onePage)
                            Faulty.streamedBody)
                         Sample.cfg "notes/todo.md" "hunter2" "kX3e9"
                         1650000000000 Sample.start tt tt
                         (BodyReadable [[Byte.x68]; [Byte.x69; Byte.x21]] None)
                         [Byte.x68; Byte.x69; Byte.x21]
                         Hfile eq_refl eq_refl (fun s => eq_refl)) Hpw)
           [Byte.x21; Byte.x69; Byte.x68] tt eq_refl).
Defined.

(** X12.  A response body that cannot be turned into bytes (an unsupported
    shape, or a stream that errors) fails the download right after the
    fetch: nothing is decrypted and nothing is written. *)
Theorem file_download_unusable_body
    {World : Type} (E : Env World) (s3Config : S3Config)
    (fileOrFolderPath password remoteEncryptedKey : string) (mtime : Z)
    (st : State World) (w1 w2 : World) (body : GetObjectBody) :
  endsWith fileOrFolderPath "/" = false ->
  let k := if String.eqb password "" then fileOrFolderPath
           else remoteEncryptedKey in
  let fetch := GetObjectCommand (s3BucketName s3Config) (Some k) in
  mkdirpInVault E fileOrFolderPath (world st) = (inr tt, w1) ->
  s3_send E fetch w1 = (inr body, w2) ->
  match body with
  | BodyOther _ => True
  | BodyReadable _ (Some _) => True
  | BodyReadableStream (inl _) => True
  | BodyBlob (inl _) => True
  | _ => False
  end ->
  exists e,
    downloadFromRemote E s3Config fileOrFolderPath mtime password
      remoteEncryptedKey st
    = (Throw e, {| world := w2; sent := sent st ++ [fetch] |})
    /\ (forall shown, body = BodyOther shown ->
        e = TypeError (String.append "The type of "
                         (String.append shown
                            " is not one of the supported types"))).
Proof.
  intros Hfile k fetch Hmk Hget Hbody. subst k fetch.
  unfold downloadFromRemote, downloadFromRemoteRaw. rewrite Hfile.
  unfold bind at 1. unfold call at 1. rewrite Hmk. cbn [world sent].
  unfold bind at 1. unfold bind at 1. unfold send at 1. cbn [world sent].
  destruct (String.eqb password ""); cbn [negb] in *; rewrite Hget;
    destruct body as [chunks [e0 |] | [e0 | b] | [e0 | b] | shown];
    try contradiction; cbn; eexists;
    (split; [reflexivity | intros shown' Heq; inversion Heq; reflexivity]).
Qed.

Lemma file_download_unusable_body_witness :
  endsWith "notes/todo.md" "/" = false
  /\ exists e,
       downloadFromRemote (withClient (Sample.env Sample.onePage)
                             Faulty.oddBody)
         Sample.cfg "notes/todo.md" 1650000000000 "" "" Sample.start
       = (Throw e,
          {| world := tt;
             sent := [GetObjectCommand "vault-backup"
                        (Some "notes/todo.md")] |})
       /\ (forall shown, BodyOther "undefined" = BodyOther shown ->
           e = TypeError (String.append "The type of "
                            (String.append shown
                               " is not one of the supported types"))).
Proof.
  assert (Hfile : endsWith "notes/todo.md" "/" = false) by reflexivity.
  split; [exact Hfile |].
  exact (file_download_unusable_body
           (withClient (Sample.env Sample.onePage) Faulty.oddBody)
           Sample.cfg "notes/todo.md" "" "" 1650000000000 Sample.start
           tt tt (BodyOther "undefined") Hfile eq_refl eq_refl I).
Defined.

(** ** listFromRemote, page by page *)

Section ListingPages.

Context {World : Type} (E : Env World).
Variables (s3Config : S3Config) (prefix : option string).

Lemma mapM_dated (cs : list S3ObjectType) (st : State World) :
  Forall (fun x => LastModified x <> None) cs ->
  exists items,
    mapM fromS3ObjectToRemoteItem cs st = (Ok items, st)
    /\ Forall2 itemOf cs items.
Proof.
  induction 1 as [| c cs Hc _ IH].
  - exists []. split; [reflexivity | constructor].
  - destruct IH as (items & Hrun & Hall).
    destruct (LastModified c) as [t |] eqn:Ht; [| congruence].
    eexists. cbn [mapM]. unfold bind, ret.
    rewrite fromS3ObjectToRemoteItem_run, Ht, Hrun.
    split; [reflexivity |].
    constructor; [| exact Hall].
    unfold itemOf. cbn. rewrite Ht. repeat split; reflexivity.
Qed.

Lemma mapM_undated (cs : list S3ObjectType) (st : State World) :
  Exists (fun x => LastModified x = None) cs ->
  exists msg,
    mapM fromS3ObjectToRemoteItem cs st = (Throw (TypeError msg), st).
Proof.
  induction 1 as [c cs Hc | c cs _ IH]; cbn [mapM]; unfold bind, ret;
    rewrite fromS3ObjectToRemoteItem_run.
  - rewrite Hc. eexists. reflexivity.
  - destruct IH as (msg & Hrun).
    destruct (LastModified c); [| eexists; reflexivity].
    rewrite Hrun. eexists. reflexivity.
Qed.

(** A status-200 page that has no contents field or is not truncated ends
    the listing: the result is the conversion of its entries. *)
Lemma listFromRemote_last_page (n : nat) (st : State World)
    (rsp : ListObjectsV2CommandOutput) (w : World) :
  s3_send E (firstListRequest s3Config prefix) (world st) = (inr rsp, w) ->
  statusIs200 (list_metadata rsp) = true ->
  Contents rsp = None \/ truthy (IsTruncated rsp) = false ->
  listFromRemote E (S n) s3Config prefix st
  = mapM fromS3ObjectToRemoteItem (pageEntries rsp)
      {| world := w;
         sent := sent st ++ [firstListRequest s3Config prefix] |}.
Proof.
  intros Hsend Hstatus Hlast. rewrite listFromRemote_single_round.
  unfold listFromRemote, firstListRequest, pageEntries in *.
  cbn [listLoop]. async_unfold. cbn [confCmd]. rewrite Hsend.
  cbn [fst snd]. unfold statusIs200 in Hstatus.
  destruct (list_metadata rsp) as [[[code |]] |]; try discriminate.
  cbn [httpStatusCode]. rewrite Hstatus. cbn [negb].
  destruct (Contents rsp) as [cs |]; [| reflexivity].
  destruct Hlast as [Hnone | Hlast]; [discriminate |].
  cbn [isTruncated continuationToken contents app]. rewrite Hlast.
  reflexivity.
Qed.

End ListingPages.

(** X13.  Once it has fuel, [listFromRemote] ends (it returns or throws)
    after exactly one ListObjectsV2 request, which names the bucket and the
    prefix and carries no continuation token; more fuel changes nothing, so
    a second page is never asked for. *)
Theorem listFromRemote_sends_one_request
    {World : Type} (E : Env World) (s3Config : S3Config)
    (prefix : option string) (n m : nat) (st : State World) :
  listFromRemote E (S n) s3Config prefix st
  = listFromRemote E (S m) s3Config prefix st
  /\ fst (listFromRemote E (S n) s3Config prefix st) <> Diverge
  /\ sent (snd (listFromRemote E (S n) s3Config prefix st))
     = (sent st
        ++ [ListObjectsV2Command
              {| list_Bucket := s3BucketName s3Config;
                 Prefix := prefix;
                 ContinuationToken := None |}])%list.
Proof.
  split.
  - rewrite (listFromRemote_single_round E s3Config prefix n).
    rewrite (listFromRemote_single_round E s3Config prefix m). reflexivity.
  - exact (listFromRemote_terminates E s3Config prefix n st).
Qed.

(** X14.  A page whose status is not 200 fails the whole listing, also when
    it carries entries: the caller gets "some thing bad while listing
    remote!" (a TypeError when the response has no metadata at all) and no
    partial result. *)
Theorem listing_fails_on_bad_status
    {World : Type} (E : Env World) (n : nat) (s3Config : S3Config)
    (prefix : option string) (st : State World)
    (rsp : ListObjectsV2CommandOutput) (w : World) :
  s3_send E (firstListRequest s3Config prefix) (world st) = (inr rsp, w) ->
  statusIs200 (list_metadata rsp) = false ->
  exists e,
    listFromRemote E (S n) s3Config prefix st
    = (Throw e,
       {| world := w;
          sent := sent st ++ [firstListRequest s3Config prefix] |})
    /\ (list_metadata rsp <> None ->
        e = Error "some thing bad while listing remote!").
Proof.
  intros Hsend Hstatus. rewrite listFromRemote_single_round.
  unfold listFromRemote, firstListRequest in *. cbn [listLoop].
  async_unfold. cbn [confCmd]. rewrite Hsend. cbn [fst snd].
  unfold statusIs200 in Hstatus.
  destruct (list_metadata rsp) as [[[code |]] |]; cbn [httpStatusCode];
    try rewrite Hstatus; cbn [negb]; eexists;
    (split; [reflexivity | congruence]).
Qed.

Lemma listing_fails_on_bad_status_witness :
  exists e,
    listFromRemote (Sample.env Faulty.forbidden) 1 Sample.cfg
      (Some "notes/") Sample.start
    = (Throw e,
       {| world := tt;
          sent := [firstListRequest Sample.cfg (Some "notes/")] |})
    /\ (Some {| httpStatusCode := Some 403%Z |} <> None ->
        e = Error "some thing bad while listing remote!").
Proof.
  exact (listing_fails_on_bad_status (Sample.env Faulty.forbidden) 0
           Sample.cfg (Some "notes/") Sample.start _ tt eq_refl eq_refl).
Defined.

(** X15.  A status-200 page without a contents field ends the listing with
    the empty result and no error, whatever it says about truncation and
    continuation. *)
Theorem listing_without_contents_is_empty
    {World : Type} (E : Env World) (n : nat) (s3Config : S3Config)
    (prefix : option string) (st : State World)
    (rsp : ListObjectsV2CommandOutput) (w : World) :
  s3_send E (firstListRequest s3Config prefix) (world st) = (inr rsp, w) ->
  statusIs200 (list_metadata rsp) = true ->
  Contents rsp = None ->
  listFromRemote E (S n) s3Config prefix st
  = (Ok [],
     {| world := w; sent := sent st ++ [firstListRequest s3Config prefix] |}).
Proof.
  intros Hsend Hstatus Hnone.
  rewrite (listFromRemote_last_page E s3Config prefix n st rsp w Hsend
             Hstatus (or_introl Hnone)).
  unfold pageEntries. rewrite Hnone. reflexivity.
Qed.

Lemma listing_without_contents_is_empty_witness :
  listFromRemote (Sample.env Faulty.emptyBucket) 1 Sample.cfg None
    Sample.start
  = (Ok [], {| world := tt; sent := [firstListRequest Sample.cfg None] |}).
Proof.
  exact (listing_without_contents_is_empty (Sample.env Faulty.emptyBucket) 0
           Sample.cfg None Sample.start (Sample.page None false None) tt
           eq_refl eq_refl eq_refl).
Defined.

(** X16.  On a complete status-200 page whose entries all carry
    [LastModified], [listFromRemote] returns one item per entry, in the
    page's order, each with the entry's key, date, size and etag and the
    type tag ["s3"]. *)
Theorem listing_converts_complete_page
    {World : Type} (E : Env World) (n : nat) (s3Config : S3Config)
    (prefix : option string) (st : State World)
    (rsp : ListObjectsV2CommandOutput) (w : World) :
  s3_send E (firstListRequest s3Config prefix) (world st) = (inr rsp, w) ->
  statusIs200 (list_metadata rsp) = true ->
  truthy (IsTruncated rsp) = false ->
  Forall (fun x => LastModified x <> None) (pageEntries rsp) ->
  exists items,
    listFromRemote E (S n) s3Config prefix st
    = (Ok items,
       {| world := w;
          sent := sent st ++ [firstListRequest s3Config prefix] |})
    /\ Forall2 itemOf (pageEntries rsp) items.
Proof.
  intros Hsend Hstatus Hlast Hdated.
  rewrite (listFromRemote_last_page E s3Config prefix n st rsp w Hsend
             Hstatus (or_intror Hlast)).
  apply mapM_dated. exact Hdated.
Qed.

Lemma listing_converts_complete_page_witness :
  exists items,
    listFromRemote (Sample.env Sample.onePage) 1 Sample.cfg (Some "notes/")
      Sample.start
    = (Ok items,
       {| world := tt;
          sent := [firstListRequest Sample.cfg (Some "notes/")] |})
    /\ Forall2 itemOf (Sample.entries 0 3) items.
Proof.
  refine (listing_converts_complete_page (Sample.env Sample.onePage) 0
            Sample.cfg (Some "notes/") Sample.start
            (Sample.page (Some (Sample.entries 0 3)) false None) tt
            eq_refl eq_refl eq_refl _).
  repeat constructor; discriminate.
Defined.

(** X17.  One entry without [LastModified] on a complete status-200 page
    fails the whole listing with a TypeError: the entries before it are not
    returned. *)
Theorem listing_fails_on_undated_entry
    {World : Type} (E : Env World) (n : nat) (s3Config : S3Config)
    (prefix : option string) (st : State World)
    (rsp : ListObjectsV2CommandOutput) (w : World) :
  s3_send E (firstListRequest s3Config prefix) (world st) = (inr rsp, w) ->
  statusIs200 (list_metadata rsp) = true ->
  truthy (IsTruncated rsp) = false ->
  Exists (fun x => LastModified x = None) (pageEntries rsp) ->
  exists msg,
    listFromRemote E (S n) s3Config prefix st
    = (Throw (TypeError msg),
       {| world := w;
          sent := sent st ++ [firstListRequest s3Config prefix] |}).
Proof.
  intros Hsend Hstatus Hlast Hundated.
  rewrite (listFromRemote_last_page E s3Config prefix n st rsp w Hsend
             Hstatus (or_intror Hlast)).
  apply mapM_undated. exact Hundated.
Qed.

Lemma listing_fails_on_undated_entry_witness :
  exists msg,
    listFromRemote (Sample.env Faulty.undatedEntry) 1 Sample.cfg
      (Some "notes/") Sample.start
    = (Throw (TypeError msg),
       {| world := tt;
          sent := [firstListRequest Sample.cfg (Some "notes/")] |}).
Proof.
  refine (listing_fails_on_undated_entry (Sample.env Faulty.undatedEntry) 0
            Sample.cfg (Some "notes/") Sample.start
            (Sample.page
               (Some [Sample.entry 0;
                      {| Key := Some "notes/1"; LastModified := None;
                         Size := Some 3%Z; ETag := None |}])
               false None) tt eq_refl eq_refl eq_refl _).
  apply Exists_cons_tl. apply Exists_cons_hd. reflexivity.
Defined.

(** ** deleteFromRemote *)

(** The per-entry deletes are all started, in order, and their settlements
    are dropped. *)
Lemma forEachAsync_deletes
    {World : Type} (E : Env World) (s3Config : S3Config)
    (items : list RemoteItem) (st : State World) :
  fst (forEachAsync
         (fun element =>
            send E (DeleteObjectCommand (s3BucketName s3Config)
                      (key element)))
         items st) = Ok tt
  /\ sent (snd (forEachAsync
                  (fun element =>
                     send E (DeleteObjectCommand (s3BucketName s3Config)
                               (key element)))
                  items st))
     = (sent st ++ map (deleteOf s3Config) items)%list.
Proof.
  revert st. induction items as [| element items IH]; intros st.
  - cbn. split; [reflexivity | symmetry; apply app_nil_r].
  - cbn [forEachAsync map]. unfold bind, fireAndForget. cbn iota.
    destruct (IH (snd (send E (DeleteObjectCommand (s3BucketName s3Config)
                                 (key element)) st))) as (Hok & Hsent).
    split; [exact Hok |]. etransitivity; [exact Hsent |]. unfold send.
    destruct (s3_send E _ (world st)) as [r w]. cbn [snd sent].
    rewrite <- app_assoc. reflexivity.
Qed.

(** X18.  The delete of a file (a path not ending in ["/"]) is the single
    DeleteObject of the remote key, the encrypted key when a password is
    set: nothing is listed, and the outcome is that request's outcome. *)
Theorem file_delete_is_one_request
    {World : Type} (E : Env World) (fuel : nat) (s3Config : S3Config)
    (fileOrFolderPath password remoteEncryptedKey : string)
    (st : State World) :
  endsWith fileOrFolderPath "/" = false ->
  let k := if String.eqb password "" then fileOrFolderPath
           else remoteEncryptedKey in
  deleteFromRemote E fuel s3Config fileOrFolderPath password
    remoteEncryptedKey st
  = send E (DeleteObjectCommand (s3BucketName s3Config) (Some k)) st.
Proof.
  intros Hfile k. subst k. unfold deleteFromRemote.
  destruct (String.eqb_spec fileOrFolderPath "/") as [Hroot | _];
    [subst; discriminate |].
  rewrite Hfile. cbn [andb].
  destruct (String.eqb password ""); cbn [negb]; unfold bind, ret, send;
    destruct (s3_send E _ (world st)) as [[e | []] w]; reflexivity.
Qed.

Lemma file_delete_is_one_request_witness :
  endsWith "notes/todo.md" "/" = false
  /\ deleteFromRemote (withClient (Sample.env Sample.onePage)
                         Faulty.noDeletes)
       3 Sample.cfg "notes/todo.md" "" "" Sample.start
     = (Throw (Error "AccessDenied"),
        {| world := tt;
           sent := [DeleteObjectCommand "vault-backup"
                      (Some "notes/todo.md")] |}).
Proof.
  assert (Hfile : endsWith "notes/todo.md" "/" = false) by reflexivity.
  split; [exact Hfile |].
  exact (file_delete_is_one_request
           (withClient (Sample.env Sample.onePage) Faulty.noDeletes) 3
           Sample.cfg "notes/todo.md" "" "" Sample.start Hfile).
Defined.

(** X19.  The delete of a directory marker without a password deletes the
    marker, lists under the marker's path and starts one delete per listed
    item, in the listing's order.  Once the marker is deleted and the
    listing has returned, the call returns normally whatever becomes of the
    per-item deletes: their failures never reach the caller. *)
Theorem folder_delete_is_best_effort
    {World : Type} (E : Env World) (fuel : nat) (s3Config : S3Config)
    (fileOrFolderPath remoteEncryptedKey : string)
    (st st2 : State World) (w1 : World) (items : list RemoteItem) :
  endsWith fileOrFolderPath "/" = true ->
  fileOrFolderPath <> "/" ->
  let marker := DeleteObjectCommand (s3BucketName s3Config)
                  (Some fileOrFolderPath) in
  s3_send E marker (world st) = (inr tt, w1) ->
  listFromRemote E fuel s3Config (Some fileOrFolderPath)
    {| world := w1; sent := sent st ++ [marker] |} = (Ok items, st2) ->
  exists st3,
    deleteFromRemote E fuel s3Config fileOrFolderPath "" remoteEncryptedKey
      st = (Ok tt, st3)
    /\ sent st3
       = (sent st
          ++ marker
             :: firstListRequest s3Config (Some fileOrFolderPath)
             :: map (deleteOf s3Config) items)%list.
Proof.
  intros Hfolder Hroot marker Hmarker Hlist. subst marker.
  unfold deleteFromRemote.
  destruct (String.eqb_spec fileOrFolderPath "/"); [contradiction |].
  rewrite Hfolder. cbn [String.eqb andb negb].
  unfold bind at 1. unfold send at 1. rewrite Hmarker. cbn [world sent].
  unfold bind at 1. rewrite Hlist.
  destruct (forEachAsync_deletes E s3Config items st2) as (Hok & Hsent).
  destruct (forEachAsync _ items st2) as [o st3] eqn:Hrun.
  cbn [fst snd] in *. subst o. exists st3. split; [reflexivity |].
  rewrite Hsent.
  destruct fuel as [| fuel']; [discriminate |].
  pose proof (proj2 (listFromRemote_terminates E s3Config
                       (Some fileOrFolderPath) fuel'
                       {| world := w1;
                          sent := sent st
                                  ++ [DeleteObjectCommand
                                        (s3BucketName s3Config)
                                        (Some fileOrFolderPath)] |}))
    as Hone.
  unfold issues in Hone. rewrite Hlist in Hone. cbn [fst snd sent] in Hone.
  rewrite Hone. rewrite <- !app_assoc. reflexivity.
Qed.

Lemma folder_delete_is_best_effort_witness :
  endsWith "notes/" "/" = true
  /\ exists st3,
       deleteFromRemote (withClient (Sample.env Sample.onePage)
                           Faulty.onlyMarkerDeletes)
         1 Sample.cfg "notes/" "" "" Sample.start = (Ok tt, st3)
       /\ sent st3
          = [DeleteObjectCommand "vault-backup" (Some "notes/");
             firstListRequest Sample.cfg (Some "notes/");
             DeleteObjectCommand "vault-backup" (Some "notes/0");
             DeleteObjectCommand "vault-backup" (Some "notes/1");
             DeleteObjectCommand "vault-backup" (Some "notes/2")].
Proof.
  assert (Hfolder : endsWith "notes/" "/" = true) by reflexivity.
  assert (Hroot : "notes/" <> "/") by discriminate.
  split; [exact Hfolder |].
  exact (folder_delete_is_best_effort
           (withClient (Sample.env Sample.onePage) Faulty.onlyMarkerDeletes)
           1 Sample.cfg "notes/" "" Sample.start _ tt _
           Hfolder Hroot eq_refl eq_refl).
Defined.

(** X20.  When the listing under a directory marker comes back truncated,
    the delete of that directory (no password) throws after it has deleted
    the marker: the two requests sent are the marker's delete and the
    listing, and no listed item is deleted. *)
Theorem folder_delete_stops_at_truncated_listing
    {World : Type} (E : Env World) (n : nat) (s3Config : S3Config)
    (fileOrFolderPath remoteEncryptedKey : string)
    (st : State World) (w1 w2 : World) (rsp : ListObjectsV2CommandOutput) :
  endsWith fileOrFolderPath "/" = true ->
  fileOrFolderPath <> "/" ->
  let marker := DeleteObjectCommand (s3BucketName s3Config)
                  (Some fileOrFolderPath) in
  let listing := firstListRequest s3Config (Some fileOrFolderPath) in
  s3_send E marker (world st) = (inr tt, w1) ->
  s3_send E listing w1 = (inr rsp, w2) ->
  Contents rsp <> None ->
  truthy (IsTruncated rsp) = true ->
  exists e,
    deleteFromRemote E (S n) s3Config fileOrFolderPath ""
      remoteEncryptedKey st
    = (Throw e, {| world := w2; sent := sent st ++ [marker; listing] |}).
Proof.
  intros Hfolder Hroot marker listing Hmarker Hlisting Hcontents Htrunc.
  subst marker listing. unfold deleteFromRemote.
  destruct (String.eqb_spec fileOrFolderPath "/"); [contradiction |].
  rewrite Hfolder. cbn [String.eqb andb negb].
  unfold bind at 1. unfold send at 1. rewrite Hmarker. cbn [world sent].
  unfold bind at 1.
  destruct (listFromRemote_truncated_page E s3Config (Some fileOrFolderPath)
              n {| world := w1;
                   sent := sent st
                           ++ [DeleteObjectCommand (s3BucketName s3Config)
                                 (Some fileOrFolderPath)] |}
              rsp w2 Hlisting Hcontents Htrunc) as (e & Hrun).
  rewrite Hrun. exists e. cbn [sent]. rewrite <- app_assoc. reflexivity.
Qed.

Lemma folder_delete_stops_at_truncated_listing_witness :
  endsWith "notes/" "/" = true
  /\ exists e,
       deleteFromRemote (Sample.env Sample.twoPages) 5 Sample.cfg "notes/"
         "" "" Sample.start
       = (Throw e,
          {| world := tt;
             sent := [DeleteObjectCommand "vault-backup" (Some "notes/");
                      firstListRequest Sample.cfg (Some "notes/")] |}).
Proof.
  assert (Hfolder : endsWith "notes/" "/" = true) by reflexivity.
  assert (Hroot : "notes/" <> "/") by discriminate.
  assert (Hcontents : Contents Sample.firstPage <> None) by discriminate.
  split; [exact Hfolder |].
  exact (folder_delete_stops_at_truncated_listing
           (Sample.env Sample.twoPages) 4 Sample.cfg "notes/" ""
           Sample.start tt tt Sample.firstPage
           Hfolder Hroot eq_refl eq_refl Hcontents eq_refl).
Defined.

(** ** Metadata after a write *)

(** X21.  [getRemoteMeta] sends the one HeadObject of the given key.  It
    returns an item exactly when the response carries [LastModified]; the
    item's key is the key asked for, its size the response's
    [ContentLength], its etag the response's [ETag].  A response without
    [LastModified] is a TypeError, a rejected request is the caller's
    error. *)
Theorem getRemoteMeta_outcome
    {World : Type} (E : Env World) (s3Config : S3Config)
    (fileOrFolderPath : string) (st : State World) :
  let ask := HeadObjectCommand (s3BucketName s3Config)
               (Some fileOrFolderPath) in
  let run := getRemoteMeta E s3Config fileOrFolderPath st in
  snd run = {| world := snd (s3_send E ask (world st));
               sent := sent st ++ [ask] |}
  /\ (forall e, fst (s3_send E ask (world st)) = inl e -> fst run = Throw e)
  /\ (forall res,
        fst (s3_send E ask (world st)) = inr res ->
        match head_LastModified res with
        | Some t =>
            fst run
            = Ok {| key := Some fileOrFolderPath;
                    lastModified := t;
                    size := head_ContentLength res;
                    remoteType := "s3";
                    etag := head_ETag res |}
        | None => exists msg, fst run = Throw (TypeError msg)
        end).
Proof.
  intros ask run. subst ask run. async_unfold.
  destruct (s3_send E _ (world st)) as [[e | res] w]; cbn [fst snd].
  - repeat split; [congruence | discriminate].
  - destruct (head_LastModified res) as [t |] eqn:Ht; cbn [fst snd].
    + repeat split; [discriminate |].
      intros res' Heq. inversion Heq; subst res'. rewrite Ht. reflexivity.
    + repeat split; [discriminate |].
      intros res' Heq. inversion Heq; subst res'. rewrite Ht.
      eexists. reflexivity.
Qed.

Lemma getRemoteMeta_outcome_witness :
  fst (getRemoteMeta (Sample.env Sample.onePage) Sample.cfg "notes/todo.md"
         Sample.start)
  = Ok {| key := Some "notes/todo.md";
          lastModified := 1650000000000;
          size := Some 12%Z;
          remoteType := "s3";
          etag := Some "0f343b0931126a20f133d67c2b018a3b" |}
  /\ exists msg,
       fst (getRemoteMeta (withClient (Sample.env Sample.onePage)
                             Faulty.headWithoutDate)
              Sample.cfg "notes/todo.md" Sample.start)
       = Throw (TypeError msg).
Proof.
  split.
  - exact (proj2 (proj2 (getRemoteMeta_outcome (Sample.env Sample.onePage)
                           Sample.cfg "notes/todo.md" Sample.start))
             _ eq_refl).
  - exact (proj2 (proj2 (getRemoteMeta_outcome
                           (withClient (Sample.env Sample.onePage)
                              Faulty.headWithoutDate)
                           Sample.cfg "notes/todo.md" Sample.start))
             _ eq_refl).
Defined.

(** X22.  An upload can fail after its write went through: when the
    PutObject of a directory marker resolves and the HeadObject that follows
    is rejected, or answers without [LastModified], the call throws although
    both requests were sent and the marker was written. *)
Theorem folder_upload_fails_after_write
    {World : Type} (E : Env World) (s3Config : S3Config)
    (fileOrFolderPath password remoteEncryptedKey : string)
    (st : State World) (w1 w2 : World) :
  endsWith fileOrFolderPath "/" = true ->
  let k := if String.eqb password "" then fileOrFolderPath
           else remoteEncryptedKey in
  let put := PutObjectCommand (s3BucketName s3Config) (Some k) []
               "application/octet-stream" in
  let ask := HeadObjectCommand (s3BucketName s3Config) (Some k) in
  let up := uploadToRemote E s3Config fileOrFolderPath false password
              remoteEncryptedKey in
  s3_send E put (world st) = (inr tt, w1) ->
  (forall e,
     s3_send E ask w1 = (inl e, w2) ->
     up st = (Throw e, {| world := w2; sent := sent st ++ [put; ask] |}))
  /\ (forall res,
        s3_send E ask w1 = (inr res, w2) ->
        head_LastModified res = None ->
        exists msg,
          up st
          = (Throw (TypeError msg),
             {| world := w2; sent := sent st ++ [put; ask] |})).
Proof.
  intros Hfolder k put ask up Hput. subst k put ask up.
  unfold uploadToRemote, DEFAULT_CONTENT_TYPE. rewrite Hfolder.
  cbn [andb negb].
  destruct (String.eqb password ""); cbn [negb] in *; async_unfold;
    rewrite Hput; cbn [fst snd world sent]; split.
  all: try (intros e Hask; rewrite Hask; cbn [fst snd world sent];
            rewrite <- app_assoc; reflexivity).
  all: intros res Hask Hdate; rewrite Hask; cbn [fst snd world sent];
    rewrite Hdate; eexists; rewrite <- app_assoc; reflexivity.
Qed.

Lemma folder_upload_fails_after_write_witness :
  endsWith "notes/" "/" = true
  /\ uploadToRemote (withClient (Sample.env Sample.onePage)
                       Faulty.headRejects)
       Sample.cfg "notes/" false "" "" Sample.start
     = (Throw (Error "NotFound"),
        {| world := tt;
           sent := [PutObjectCommand "vault-backup" (Some "notes/") []
                      "application/octet-stream";
                    HeadObjectCommand "vault-backup" (Some "notes/")] |})
  /\ exists msg,
       uploadToRemote (withClient (Sample.env Sample.onePage)
                         Faulty.headWithoutDate)
         Sample.cfg "notes/" false "" "" Sample.start
       = (Throw (TypeError msg),
          {| world := tt;
             sent := [PutObjectCommand "vault-backup" (Some "notes/") []
                        "application/octet-stream";
                      HeadObjectCommand "vault-backup" (Some "notes/")] |}).
Proof.
  assert (Hfolder : endsWith "notes/" "/" = true) by reflexivity.
  split; [exact Hfolder |]. split.
  - exact (proj1 (folder_upload_fails_after_write
                    (withClient (Sample.env Sample.onePage)
                       Faulty.headRejects)
                    Sample.cfg "notes/" "" "" Sample.start tt tt
                    Hfolder eq_refl)
             (Error "NotFound") eq_refl).
  - exact (proj2 (folder_upload_fails_after_write
                    (withClient (Sample.env Sample.onePage)
                       Faulty.headWithoutDate)
                    Sample.cfg "notes/" "" "" Sample.start tt tt
                    Hfolder eq_refl)
             _ eq_refl eq_refl).
Defined.

(** X23.  A download starts with the local directories: when
    [mkdirpInVault] fails, the error is the caller's and no request has been
    sent, for files and directory markers alike. *)
Theorem download_stops_at_mkdirp_failure
    {World : Type} (E : Env World) (s3Config : S3Config)
    (fileOrFolderPath password remoteEncryptedKey : string) (mtime : Z)
    (st : State World) (e : JsError) (w1 : World) :
  mkdirpInVault E fileOrFolderPath (world st) = (inl e, w1) ->
  downloadFromRemote E s3Config fileOrFolderPath mtime password
    remoteEncryptedKey st
  = (Throw e, {| world := w1; sent := sent st |}).
Proof.
  intros Hmk. unfold downloadFromRemote. async_unfold. rewrite Hmk.
  reflexivity.
Qed.

Lemma download_stops_at_mkdirp_failure_witness :
  downloadFromRemote Faulty.unreadable Sample.cfg "notes/todo.md"
    1650000000000 "" "" Sample.start
  = (Throw (Error "EACCES"), Sample.start).
Proof.
  exact (download_stops_at_mkdirp_failure Faulty.unreadable Sample.cfg
           "notes/todo.md" "" "" 1650000000000 Sample.start
           (Error "EACCES") tt eq_refl).
Defined.

(** ** The remote key without a password *)

(** X24.  Without a password the path itself is the remote key: every
    request of an upload and of a download names it, and so does the one
    request of a file's delete; the same key is written, fetched and
    deleted. *)
Theorem plain_path_is_the_remote_key
    {World : Type} (E : Env World) (s3Config : S3Config)
    (fileOrFolderPath remoteEncryptedKey : string)
    (isRecursively : bool) (mtime : Z) (fuel : nat) (st : State World) :
  onlyKey (uploadToRemote E s3Config fileOrFolderPath isRecursively ""
             remoteEncryptedKey) st fileOrFolderPath
  /\ onlyKey (downloadFromRemote E s3Config fileOrFolderPath mtime ""
                remoteEncryptedKey) st fileOrFolderPath
  /\ (endsWith fileOrFolderPath "/" = false ->
      onlyKey (deleteFromRemote E fuel s3Config fileOrFolderPath ""
                 remoteEncryptedKey) st fileOrFolderPath).
Proof.
  split; [| split].
  - unfold uploadToRemote. cbn [String.eqb negb].
    destruct (endsWith fileOrFolderPath "/"), isRecursively; cbn [andb negb];
      async_unfold; repeat settle;
      repeat match goal with
             | |- context [head_LastModified ?h] =>
                 destruct (head_LastModified h)
             end;
      trace_done.
  - unfold downloadFromRemote. cbn [String.eqb negb].
    async_unfold. settle; [trace_done |].
    destruct (endsWith fileOrFolderPath "/"); [trace_done |].
    settle; [trace_done |].
    match goal with
    | g : Reply (GetObjectCommand _ _) |- _ =>
        destruct g as [chunks [e|] | [e|bytes] | [e|bytes] | shown]
    end; cbn [fst snd world sent]; try trace_done; settle; trace_done.
  - intros Hfile. unfold deleteFromRemote.
    destruct (String.eqb_spec fileOrFolderPath "/") as [Hroot | _];
      [subst; discriminate |].
    rewrite Hfile. cbn [String.eqb andb negb]. async_unfold.
    settle; trace_done.
Qed.

Lemma plain_path_is_the_remote_key_witness :
  endsWith "notes/todo.md" "/" = false
  /\ onlyKey (deleteFromRemote (Sample.env Sample.onePage) 1 Sample.cfg
                "notes/todo.md" "" "") Sample.start "notes/todo.md".
Proof.
  assert (Hfile : endsWith "notes/todo.md" "/" = false) by reflexivity.
  split; [exact Hfile |].
  exact (proj2 (proj2 (plain_path_is_the_remote_key
                         (Sample.env Sample.onePage) Sample.cfg
                         "notes/todo.md" "" false 0%Z 1 Sample.start))
           Hfile).
Defined.
